(** * msix-node: the incremental packaging pipeline of [cli.js]

    A shallow embedding of [cli.js]: the script stager ([prepareScript]),
    the artifact assembler ([createTestSea]), the identity registrar
    ([registerAppx]), the launcher ([runExe]) and the orchestrator
    ([main]), over an explicit model of the file system, of the
    subprocesses the script starts and of the events it causes. *)

From Stdlib Require Import ZArith Ascii String List Lia.
From stdpp Require Import base gmap strings list pretty.

Open Scope string_scope.
Open Scope list_scope.

(** ** Data *)

(** File contents are byte sequences. *)
Abbreviation bytes := (list Byte.byte).

(** A path is the list of its components from the root: [C:\a\b] is
    [["C:"; "a"; "b"]]. *)
Abbreviation path := (list string).

(** [path.join(dir, name)] for a normalised absolute [dir] and a plain file
    name (no separator, no dot segment): the name becomes the last
    component. Every call of [path.join] in [cli.js] has this shape. *)
Definition path_join (dir : path) (name : string) : path := dir ++ [name].

(** The separator of [path.win32]; the tool only runs on win32. *)
Definition path_sep : string := "\".

(** The string form of a path, as [__dirname] holds it. *)
Definition path_to_string (p : path) : string := String.concat path_sep p.

Inductive node :=
  | File (content : bytes)
  | Dir.

(** The disk: the entries that exist, by path. The root [[]] always is a
    directory. *)
Abbreviation FS := (gmap path node).

Definition is_dir (fs : FS) (p : path) : bool :=
  match p with
  | [] => true
  | _ => match fs !! p with Some Dir => true | _ => false end
  end.

Definition parent (p : path) : path := removelast p.

(** The code of the error a call gets when the directory [d] it needs is
    not there: a file in its place, or nothing. *)
Definition dir_error (fs : FS) (d : path) : string :=
  match fs !! d with
  | Some (File _) => "ENOTDIR"
  | _ => "ENOENT"
  end.

(** What a promise can be rejected with, or a function can throw. *)
Inductive js_error :=
  | JsError (message : string)            (* [new Error(message)] *)
  | SysError (code : string) (p : path)   (* an error of [node:fs] *)
  | ExecError (cmd : string)              (* [exec]: non-zero exit or spawn failure *)
  | Rejected (reason : string).           (* [reject(aString)] *)

(** How a call ends: it returns, it throws (a rejected promise, which
    [try]/[catch] around an [await] sees), or an ['error'] event without a
    listener brings the process down, which no [catch] sees. *)
Inductive outcome (A : Type) :=
  | Ok (a : A)
  | Throw (e : js_error)
  | Crash (e : js_error).
Arguments Ok {A} a.
Arguments Throw {A} e.
Arguments Crash {A} e.

(** How a child process ends: the ['exit'] event's [code] is a number, or
    [null] when a signal ended the child. *)
Inductive exit_status :=
  | Exited (code : N)
  | Signaled (signal : string).

(** The effects of a run, in order. File-system calls and subprocesses are
    recorded when they are issued, whether or not they succeed. *)
Inductive event :=
  | EvMkdir (p : path)
  | EvWriteFile (p : path) (data : bytes)
  | EvCp (src dst : path)
  | EvExec (cmd : string) (shell : option string) (cwd : path)
  | EvSpawn (file : string) (args : list string) (cwd : path)
  | EvConsole (level msg : string)
  | EvStdout (data : bytes)
  | EvStderr (data : bytes).

(** ** The monad of the script: state (the disk), errors, a log of events *)

Record run (A : Type) := Run {
  res : outcome A;
  disk : FS;
  trace : list event
}.
Arguments Run {A} res disk trace.
Arguments res {A} r.
Arguments disk {A} r.
Arguments trace {A} r.

Definition M (A : Type) : Type := FS -> run A.

Definition ret {A} (a : A) : M A := fun fs => Run (Ok a) fs [].
Definition throw {A} (e : js_error) : M A := fun fs => Run (Throw e) fs [].
Definition emit (ev : event) : M unit := fun fs => Run (Ok tt) fs [ev].

(** [await m; k] *)
Definition bind {A B} (m : M A) (k : A -> M B) : M B := fun fs =>
  let r := m fs in
  match res r with
  | Ok a => let r' := k a (disk r) in
            Run (res r') (disk r') (trace r ++ trace r')
  | Throw e => Run (Throw e) (disk r) (trace r)
  | Crash e => Run (Crash e) (disk r) (trace r)
  end.

(** [try { m } catch (e) { h e }] *)
Definition try_catch {A} (m : M A) (h : js_error -> M A) : M A := fun fs =>
  let r := m fs in
  match res r with
  | Throw e => let r' := h e (disk r) in
               Run (res r') (disk r') (trace r ++ trace r')
  | _ => r
  end.

Declare Scope js_scope.
Delimit Scope js_scope with js.
Notation "x <- m ;; k" := (bind m (fun x => k))
  (at level 20, m at level 99, k at level 200, only parsing) : js_scope.
Notation "m ;; k" := (bind m (fun _ => k))
  (at level 100, k at level 200, right associativity, only parsing) : js_scope.
Open Scope js_scope.

(** ** [node:fs] *)

(** [await fs.stat(p)]: the entry, or the error for a path that is not
    there. *)
Definition fs_stat (p : path) : M node := fun fs =>
  match p with
  | [] => Run (Ok Dir) fs []
  | _ => match fs !! p with
         | Some n => Run (Ok n) fs []
         | None => Run (Throw (SysError (dir_error fs (parent p)) p)) fs []
         end
  end.

(** [stat.isFile()] *)
Definition isFile (n : node) : bool :=
  match n with File _ => true | Dir => false end.

(** [await fs.mkdir(p)], not recursive. *)
Definition fs_mkdir (p : path) : M unit := fun fs =>
  match p with
  | [] => Run (Throw (SysError "EEXIST" p)) fs [EvMkdir p]
  | _ =>
    match fs !! p with
    | Some _ => Run (Throw (SysError "EEXIST" p)) fs [EvMkdir p]
    | None =>
      if is_dir fs (parent p)
      then Run (Ok tt) (<[p := Dir]> fs) [EvMkdir p]
      else Run (Throw (SysError (dir_error fs (parent p)) p)) fs [EvMkdir p]
    end
  end.

(** [await fs.readFile(p, 'utf8')]: the bytes of the file as a string. *)
Definition fs_readFile (p : path) : M string := fun fs =>
  match fs !! p with
  | Some (File c) => Run (Ok (string_of_list_byte c)) fs []
  | Some Dir => Run (Throw (SysError "EISDIR" p)) fs []
  | None =>
    Run (Throw (SysError (if is_dir fs p then "EISDIR"
                          else dir_error fs (parent p)) p)) fs []
  end.

(** [await fs.writeFile(p, data)]: creates or replaces the file; the
    directory must exist. *)
Definition fs_writeFile (p : path) (data : bytes) : M unit := fun fs =>
  match p with
  | [] => Run (Throw (SysError "EISDIR" p)) fs [EvWriteFile p data]
  | _ =>
    match fs !! p with
    | Some Dir => Run (Throw (SysError "EISDIR" p)) fs [EvWriteFile p data]
    | _ =>
      if is_dir fs (parent p)
      then Run (Ok tt) (<[p := File data]> fs) [EvWriteFile p data]
      else Run (Throw (SysError (dir_error fs (parent p)) p)) fs
               [EvWriteFile p data]
    end
  end.

(** The directories [fs.cp] creates above its destination
    ([mkdir(dirname(dest), { recursive: true })]); [None] when a file is in
    the way. *)
Fixpoint mkdirp_from (done todo : path) (fs : FS) : option FS :=
  match todo with
  | [] => Some fs
  | c :: todo' =>
    let d := done ++ [c] in
    match fs !! d with
    | Some (File _) => None
    | Some Dir => mkdirp_from d todo' fs
    | None => mkdirp_from d todo' (<[d := Dir]> fs)
    end
  end.

Definition mkdirp (p : path) (fs : FS) : option FS := mkdirp_from [] p fs.

(** [await fs.cp(src, dst)] with the default options: a file is copied
    over what is at [dst] ([force] is true by default), a directory is
    refused ([recursive] is false by default). *)
Definition fs_cp (src dst : path) : M unit := fun fs =>
  match fs !! src with
  | None => Run (Throw (SysError (dir_error fs (parent src)) src)) fs [EvCp src dst]
  | Some Dir =>
    Run (Throw (match fs !! dst with
                | Some (File _) => SysError "ERR_FS_CP_DIR_TO_NON_DIR" dst
                | _ => SysError "ERR_FS_EISDIR" src
                end)) fs [EvCp src dst]
  | Some (File c) =>
    if decide (src = dst)
    then Run (Throw (SysError "ERR_FS_CP_EINVAL" dst)) fs [EvCp src dst]
    else if is_dir fs dst
    then Run (Throw (SysError "ERR_FS_CP_NON_DIR_TO_DIR" dst)) fs [EvCp src dst]
    else match mkdirp (parent dst) fs with
         | Some fs' => Run (Ok tt) (<[dst := File c]> fs') [EvCp src dst]
         | None => Run (Throw (SysError "ENOTDIR" dst)) fs [EvCp src dst]
         end
  end.

(** [console.log], [console.info], [console.debug], [console.error] *)
Definition console (level msg : string) : M unit := emit (EvConsole level msg).

(** ** [node:crypto]: a hash object, fed chunk by chunk *)

(** The interface of the object [crypto.createHash] returns, as the script
    uses it through [pipe]: every chunk written to it goes through
    [update]; when the input ends the digest is pushed to its readable
    side. *)
Class StreamHash := {
  hash_state : Type;
  hash_init : hash_state;
  hash_update : hash_state -> bytes -> hash_state;
  hash_digest : hash_state -> bytes
}.

(** [createHash(alg).update(data).digest()]: the digest of [data] written
    in one piece. *)
Definition digest_of `{StreamHash} (data : bytes) : bytes :=
  hash_digest (hash_update hash_init data).

(** What a hash object promises about chunks: only the bytes written
    count, not how they were cut. *)
Class LawfulHash (H : StreamHash) : Prop :=
  hash_chunks : forall chunks : list bytes,
    hash_digest (fold_left hash_update chunks hash_init)
    = digest_of (concat chunks).

(** ** Strings of the script *)

(** The double quote and the line feed, which a literal cannot hold. *)
Definition dq : string := String (ascii_of_nat 34) "".
Definition nl : string := String (ascii_of_nat 10) "".

Definition hex_digit (n : N) : ascii :=
  match n with
  | 0 => "0" | 1 => "1" | 2 => "2" | 3 => "3" | 4 => "4" | 5 => "5"
  | 6 => "6" | 7 => "7" | 8 => "8" | 9 => "9" | 10 => "a" | 11 => "b"
  | 12 => "c" | 13 => "d" | 14 => "e" | _ => "f"
  end%char%N.

(** Two hex digits for a byte. *)
Definition hex_byte (b : Byte.byte) : string :=
  let n := Byte.to_N b in
  String (hex_digit (n / 16)) (String (hex_digit (n mod 16)) "").

(** [buf.toString('hex')] *)
Fixpoint hex_of_bytes (b : bytes) : string :=
  match b with
  | [] => ""
  | x :: b' => hex_byte x +:+ hex_of_bytes b'
  end.

(** [Buffer.from(s)] and the encoding of a string that [fs.writeFile]
    writes. *)
Definition Buffer_from (s : string) : bytes := list_byte_of_string s.

(** One character of [JSON.stringify(aString)]. *)
Definition json_escape (c : ascii) : string :=
  let n := N_of_ascii c in
  if (n =? 8)%N then "\b"
  else if (n =? 9)%N then "\t"
  else if (n =? 10)%N then "\n"
  else if (n =? 12)%N then "\f"
  else if (n =? 13)%N then "\r"
  else if (n =? 34)%N then "\" +:+ dq
  else if (n =? 92)%N then "\\"
  else if (n <? 32)%N
       then "\u00" +:+ String (hex_digit (n / 16)) (String (hex_digit (n mod 16)) "")
  else String c "".

Fixpoint json_escape_all (s : string) : string :=
  match s with
  | EmptyString => ""
  | String c s' => json_escape c +:+ json_escape_all s'
  end.

(** [JSON.stringify(s)] for a string [s]. *)
Definition JSON_stringify (s : string) : string :=
  dq +:+ json_escape_all s +:+ dq.

(** [/\d/] *)
Definition is_digit (c : ascii) : bool :=
  let n := N_of_ascii c in ((48 <=? n) && (n <=? 57))%N.

(** [/^v1\d\./.test(v)]: the first four characters are [v], [1], a
    digit and a dot. *)
Definition node_v1x (v : string) : bool :=
  match v with
  | String c0 (String c1 (String d (String c3 _))) =>
    Ascii.eqb c0 "v" && Ascii.eqb c1 "1" && is_digit d && Ascii.eqb c3 "."
  | _ => false
  end.

(** [prev === cur], where [prev] may be [undefined] and [cur] is a string. *)
Definition strict_eq (prev : option string) (cur : string) : bool :=
  match prev with
  | Some p => String.eqb p cur
  | None => false
  end.

(** The chunks a read stream delivers: [sizes] gives the sizes of the
    successive chunks (each at least one byte: [S n]); what is left when
    [sizes] runs out comes as one last chunk. *)
Fixpoint split_chunks (sizes : list nat) (data : bytes) : list bytes :=
  match data with
  | [] => []
  | _ =>
    match sizes with
    | [] => [data]
    | n :: sizes' => take (S n) data :: split_chunks sizes' (drop (S n) data)
    end
  end.

(** ** The host: what the script finds around it *)

(** The [process] object and [__dirname]. *)
Record Process := {
  platform : string;
  version : string;
  execPath : path;
  argv : list string;
  cwd : path;
  dirname : path
}.

(** What [cp.spawn] gives: the child could not be started, or it ran,
    wrote to its two streams, possibly changed the disk, and ended. *)
Inductive child_result :=
  | SpawnFailed (code : string)
  | ChildRan (status : exit_status) (out err : bytes) (after : FS).

(** The programs outside the script. [run_command cmd shell dir fs] is a
    command line run to its end through [exec]: whether it exited with
    code 0, and the disk it leaves. [run_child file args dir fs] is a
    program started with [spawn]. [read_sizes fs p] is how a read stream
    cuts the file at [p] into chunks. *)
Record Host := {
  run_command : string -> option string -> path -> FS -> bool * FS;
  run_child : string -> list string -> path -> FS -> child_result;
  read_sizes : FS -> path -> list nat
}.

(** [`${exitCode}`]: a number in decimal, or [null]. *)
Definition exit_code_text (st : exit_status) : string :=
  match st with
  | Exited c => pretty c
  | Signaled _ => "null"
  end.

(** ** The script *)

Section Cli.

Context {H : StreamHash}.
Variable host : Host.
Variable process : Process.

Definition outDir : path := path_join (dirname process) "build-tmp-msix".
Definition scriptName : string := "main.js".
Definition seaBlobName : string := "sea-prep.blob".
Definition exeName : string := "msixnode.exe".

(** [await exec(cmd, { cwd, shell })] *)
Definition exec (cmd : string) (shell : option string) (dir : path) : M unit :=
  fun fs =>
    let '(ok, fs') := run_command host cmd shell dir fs in
    Run (if ok then Ok tt else Throw (ExecError cmd)) fs' [EvExec cmd shell dir].

(** The digest the hash object pushes once the read stream has ended. *)
Definition stream_digest (chunks : list bytes) : bytes :=
  hash_digest (fold_left hash_update chunks hash_init).

(** [readFileChecksum]: the file is piped through the hash object and the
    promise resolves with the digest in hex. The only ['error'] listener is
    on the hash object, so an error of the read stream goes unheard and
    ends the process. *)
Definition readFileChecksum (filePath : path) : M string := fun fs =>
  match fs !! filePath with
  | Some (File c) =>
    let chunks := split_chunks (read_sizes host fs filePath) c in
    Run (Ok (hex_of_bytes (stream_digest chunks))) fs []
  | Some Dir => Run (Crash (SysError "EISDIR" filePath)) fs []
  | None =>
    Run (Crash (SysError (if is_dir fs filePath then "EISDIR"
                          else dir_error fs (parent filePath)) filePath)) fs []
  end.

Definition prepareScript : M unit :=
  try_catch (_ <- fs_stat outDir ;; ret tt) (fun _ => fs_mkdir outDir) ;;
  script <- fs_readFile (path_join (dirname process) "msix-node.js") ;;
  (* Allow the original test script to alter behavior for MSIX *)
  let preload :=
    nl +:+ "__sea = true;" +:+ nl +:+
    "__srcdirname = " +:+ JSON_stringify (path_to_string (dirname process))
      +:+ ";" +:+ nl in
  let compiledScript := preload +:+ script in
  fs_writeFile (path_join outDir scriptName) (Buffer_from compiledScript).

Definition sea_config : string :=
  "{ " +:+ dq +:+ "main" +:+ dq +:+ ": " +:+ dq +:+ scriptName +:+ dq +:+
  ", " +:+ dq +:+ "output" +:+ dq +:+ ": " +:+ dq +:+ seaBlobName +:+ dq +:+ " }".

Definition sea_command : string :=
  "node --experimental-sea-config sea-config.json".

Definition postject_command : string :=
  "npx postject " +:+ exeName +:+ " NODE_SEA_BLOB " +:+ seaBlobName +:+
  " --sentinel-fuse NODE_SEA_FUSE_fce680ab2cc467b6e072b8b5df1996b2".

Definition createTestSea : M bool :=
  (* Node v1x.y.z unsupported *)
  (if node_v1x (version process)
   then throw (JsError "Node v20 required to create executable.")
   else ret tt) ;;
  (* write config *)
  fs_writeFile (path_join outDir "sea-config.json") (Buffer_from sea_config) ;;
  let seaBlobPath := path_join outDir seaBlobName in
  prevBlobChecksum <-
    try_catch
      (seaBlobStat <- fs_stat seaBlobPath ;;
       if isFile seaBlobStat
       then (c <- readFileChecksum seaBlobPath ;; ret (Some c))
       else ret None)
      (fun _ => ret None) ;;
  exec sea_command None outDir ;;
  blobChecksum <- readFileChecksum seaBlobPath ;;
  (* Skip long process of preparing exe if assets are the same *)
  if strict_eq prevBlobChecksum blobChecksum
  then
    console "debug" ("Skipping " +:+ exeName +:+ " rebuild (blob checksums match)") ;;
    ret false
  else
    fs_cp (execPath process) (path_join outDir exeName) ;;
    console "info" ("Building " +:+ exeName +:+ "…") ;;
    exec postject_command None outDir ;;
    ret true.

Definition register_command : string :=
  "Add-AppxPackage –Register AppxManifest.xml -ForceUpdateFromAnyVersion".

Definition registerAppx : M unit :=
  console "log" "Registering Appx package…" ;;
  (* If this fails, try incrementing the version in the manifest. *)
  exec register_command (Some "powershell.exe") (cwd process).

(** [cp.spawn(file, args)] with the two [pipe] calls, up to the ['exit']
    event. A child that cannot be started emits ['error'], which nothing
    listens to. *)
Definition spawn (file : string) (args : list string) : M exit_status :=
  fun fs =>
    match run_child host file args (cwd process) fs with
    | SpawnFailed code =>
      Run (Crash (SysError code [file])) fs [EvSpawn file args (cwd process)]
    | ChildRan st out err fs' =>
      Run (Ok st) fs'
          [EvSpawn file args (cwd process); EvStdout out; EvStderr err]
    end.

Definition runExe : M unit :=
  console "log" ("Running packaged node…" +:+ nl) ;;
  let args := tail (argv process) in
  exitCode <- spawn exeName args ;;
  match exitCode with
  | Exited 0 => ret tt
  | _ => throw (Rejected ("msix-node exited with exitCode=" +:+ exit_code_text exitCode))
  end.

Definition main : M unit :=
  if negb (String.eqb (platform process) "win32")
  then throw (JsError "msix-node only supported on Windows.")
  else
    try_catch prepareScript
      (fun error => console "error" "Error compiling msix-node script." ;;
                    throw error) ;;
    updatedSea <-
      try_catch createTestSea
        (fun error => console "error" "Error creating node executable." ;;
                      throw error) ;;
    (* Skip appx registration if SEA wasn't updated. *)
    (if updatedSea : bool
     then try_catch registerAppx
            (fun error => console "error" "Error registering AppX package." ;;
                          throw error)
     else ret tt) ;;
    runExe.

End Cli.

(** ** MD5, the algorithm [createHash('md5')] selects (RFC 1321)

    The hash object of the script, to run the model on concrete files:
    32-bit words as [Z] with the wrap-around written out, a buffer of the
    bytes that do not fill a 64-byte block yet, and the count of bytes
    seen. *)

Module MD5.

Definition add32 (x y : Z) : Z := ((x + y) mod 2 ^ 32)%Z.
Definition not32 (x : Z) : Z := Z.lxor x 0xffffffff.
Definition rotl32 (x n : Z) : Z :=
  Z.lor (Z.shiftl x n mod 2 ^ 32)%Z (Z.shiftr x (32 - n)).

Definition K : list Z :=
  [0xd76aa478; 0xe8c7b756; 0x242070db; 0xc1bdceee; 0xf57c0faf; 0x4787c62a;
   0xa8304613; 0xfd469501; 0x698098d8; 0x8b44f7af; 0xffff5bb1; 0x895cd7be;
   0x6b901122; 0xfd987193; 0xa679438e; 0x49b40821; 0xf61e2562; 0xc040b340;
   0x265e5a51; 0xe9b6c7aa; 0xd62f105d; 0x02441453; 0xd8a1e681; 0xe7d3fbc8;
   0x21e1cde6; 0xc33707d6; 0xf4d50d87; 0x455a14ed; 0xa9e3e905; 0xfcefa3f8;
   0x676f02d9; 0x8d2a4c8a; 0xfffa3942; 0x8771f681; 0x6d9d6122; 0xfde5380c;
   0xa4beea44; 0x4bdecfa9; 0xf6bb4b60; 0xbebfbc70; 0x289b7ec6; 0xeaa127fa;
   0xd4ef3085; 0x04881d05; 0xd9d4d039; 0xe6db99e5; 0x1fa27cf8; 0xc4ac5665;
   0xf4292244; 0x432aff97; 0xab9423a7; 0xfc93a039; 0x655b59c3; 0x8f0ccc92;
   0xffeff47d; 0x85845dd1; 0x6fa87e4f; 0xfe2ce6e0; 0xa3014314; 0x4e0811a1;
   0xf7537e82; 0xbd3af235; 0x2ad7d2bb; 0xeb86d391]%Z.

Definition shifts : list Z :=
  [7; 12; 17; 22; 7; 12; 17; 22; 7; 12; 17; 22; 7; 12; 17; 22;
   5; 9; 14; 20; 5; 9; 14; 20; 5; 9; 14; 20; 5; 9; 14; 20;
   4; 11; 16; 23; 4; 11; 16; 23; 4; 11; 16; 23; 4; 11; 16; 23;
   6; 10; 15; 21; 6; 10; 15; 21; 6; 10; 15; 21; 6; 10; 15; 21]%Z.

Record regs := Regs { ra : Z; rb : Z; rc : Z; rd : Z }.

Definition initial : regs := Regs 0x67452301 0xefcdab89 0x98badcfe 0x10325476.

Definition byte_val (b : Byte.byte) : Z := Z.of_N (Byte.to_N b).

Definition byte_of_Z (z : Z) : Byte.byte :=
  match Byte.of_N (Z.to_N (z mod 256)) with
  | Some b => b
  | None => Byte.x00
  end.

(** The 32-bit little-endian word at byte offset [4 * i] of a block. *)
Definition word_at (block : bytes) (i : nat) : Z :=
  let b k := byte_val (nth (4 * i + k) block Byte.x00) in
  (b 0%nat + b 1%nat * 2 ^ 8 + b 2%nat * 2 ^ 16 + b 3%nat * 2 ^ 24)%Z.

Definition le_bytes (count : nat) (z : Z) : bytes :=
  map (fun k => byte_of_Z (Z.shiftr z (8 * Z.of_nat k))) (seq 0 count).

Definition step (block : bytes) (r : regs) (i : nat) : regs :=
  let '(Regs a b c d) := r in
  let '(f, g) :=
    match (i / 16)%nat with
    | 0%nat => (Z.lor (Z.land b c) (Z.land (not32 b) d), i)
    | 1%nat => (Z.lor (Z.land d b) (Z.land (not32 d) c), (5 * i + 1) mod 16)%nat
    | 2%nat => (Z.lxor b (Z.lxor c d), (3 * i + 5) mod 16)%nat
    | _ => (Z.lxor c (Z.lor b (not32 d)), (7 * i) mod 16)%nat
    end in
  let f' := add32 (add32 (add32 f a) (nth i K 0%Z)) (word_at block g) in
  Regs d (add32 b (rotl32 f' (nth i shifts 0%Z))) b c.

Definition compress (r : regs) (block : bytes) : regs :=
  let r' := fold_left (step block) (seq 0 64) r in
  Regs (add32 (ra r) (ra r')) (add32 (rb r) (rb r'))
       (add32 (rc r) (rc r')) (add32 (rd r) (rd r')).

(** Consumes the whole 64-byte blocks of [data]; what is left is shorter
    than a block. *)
Fixpoint absorb (fuel : nat) (r : regs) (data : bytes) : regs * bytes :=
  match fuel with
  | O => (r, data)
  | S fuel' =>
    if (64 <=? length data)%nat
    then absorb fuel' (compress r (take 64 data)) (drop 64 data)
    else (r, data)
  end.

Record state := State { st_regs : regs; st_buf : bytes; st_count : N }.

Definition init : state := State initial [] 0.

Definition update (s : state) (chunk : bytes) : state :=
  let data := st_buf s ++ chunk in
  let '(r, rest) := absorb (length data) (st_regs s) data in
  State r rest (st_count s + N.of_nat (length chunk)).

(** The padding: a one bit, zeros up to 56 modulo 64, the length in bits
    on 64 bits. *)
Definition padding (buffered : nat) (count : N) : bytes :=
  let zeros := ((119 - buffered mod 64) mod 64)%nat in
  Byte.x80 :: repeat Byte.x00 zeros
    ++ le_bytes 8 (Z.of_N (8 * count) mod 2 ^ 64)%Z.

Definition digest (s : state) : bytes :=
  let data := st_buf s ++ padding (length (st_buf s)) (st_count s) in
  let '(r, _) := absorb (length data) (st_regs s) data in
  le_bytes 4 (ra r) ++ le_bytes 4 (rb r) ++ le_bytes 4 (rc r) ++ le_bytes 4 (rd r).

End MD5.

#[export] Instance md5 : StreamHash := {|
  hash_state := MD5.state;
  hash_init := MD5.init;
  hash_update := MD5.update;
  hash_digest := MD5.digest
|}.

(** ** What the properties speak about *)

(** The digest of a file's bytes, in hex: what [readFileChecksum] is to
    compute. *)
Definition checksum `{StreamHash} (c : bytes) : string :=
  hex_of_bytes (digest_of c).

Definition is_lower_hex (c : ascii) : bool :=
  let n := N_of_ascii c in
  (((48 <=? n) && (n <=? 57)) || ((97 <=? n) && (n <=? 102)))%N.

Fixpoint all_chars (P : ascii -> bool) (s : string) : bool :=
  match s with
  | EmptyString => true
  | String c s' => P c && all_chars P s'
  end.

(** The files of the workspace. *)
Definition script_path (process : Process) : path :=
  path_join (outDir process) scriptName.
Definition config_path (process : Process) : path :=
  path_join (outDir process) "sea-config.json".
Definition blob_path (process : Process) : path :=
  path_join (outDir process) seaBlobName.
Definition exe_path (process : Process) : path :=
  path_join (outDir process) exeName.

(** The disk once the build config is written. *)
Definition with_config (process : Process) (fs : FS) : FS :=
  <[config_path process := File (Buffer_from sea_config)]> fs.

(** The digest of the blob a previous run left, if there is one. *)
Definition previous_digest `{StreamHash} (process : Process) (fs : FS)
    : option string :=
  match fs !! blob_path process with
  | Some (File old) => Some (checksum old)
  | _ => None
  end.

(** The embedding, as [createTestSea] does it when the digests differ: its
    last branch, from the copy of the host binary on. *)
Definition embedding `{StreamHash} (host : Host) (process : Process) : M bool :=
  fs_cp (execPath process) (path_join (outDir process) exeName) ;;
  console "info" ("Building " +:+ exeName +:+ "…") ;;
  exec host postject_command None (outDir process) ;;
  ret true.

(** Kinds of events. *)
Definition is_register (ev : event) : bool :=
  match ev with
  | EvExec cmd _ _ => String.eqb cmd register_command
  | _ => false
  end.

Definition is_launch (ev : event) : bool :=
  match ev with
  | EvSpawn _ _ _ => true
  | _ => false
  end.

(** The two steps of the embedding: the copy of the host binary and the
    patcher. *)
Definition is_embedding (ev : event) : bool :=
  match ev with
  | EvCp _ _ => true
  | EvExec cmd _ _ => String.eqb cmd postject_command
  | _ => false
  end.

(** A call that may change the disk: a write of the script itself, or a
    subprocess. *)
Definition is_side_effect (ev : event) : bool :=
  match ev with
  | EvMkdir _ | EvWriteFile _ _ | EvCp _ _ | EvExec _ _ _ | EvSpawn _ _ _ => true
  | _ => false
  end.

(** How many events of a kind a run had. *)
Definition calls (kind : event -> bool) (t : list event) : nat :=
  length (List.filter kind t).

(** Every event of [m], from any disk, satisfies [P]. *)
Definition emits_only {A} (P : event -> Prop) (m : M A) : Prop :=
  forall fs, Forall P (trace (m fs)).

(** What the assemble step returned in a run of [main], when the run got
    that far. *)
Definition assemble_outcome `{StreamHash} (host : Host) (process : Process)
    (fs : FS) : option (outcome bool) :=
  if String.eqb (platform process) "win32" then
    match res (prepareScript process fs) with
    | Ok _ => Some (res (createTestSea host process (disk (prepareScript process fs))))
    | _ => None
    end
  else None.



(** The first argument of the ['exit'] event. *)
Definition exitCode_of (st : exit_status) : option N :=
  match st with
  | Exited c => Some c
  | Signaled _ => None
  end.

(** A version string of the runtime: [v], the major version in decimal, a
    dot, and the rest. *)
Definition version_string (major : N) (rest : string) : string :=
  "v" +:+ pretty major +:+ "." +:+ rest.

(** ** A concrete host, to run the script *)

Module Demo.

Definition tool_dir : path := ["C:"; "tool"].
Definition work_dir : path := ["C:"; "work"].
Definition node_exe : path := ["C:"; "node"; "node.exe"].

Definition process_at (ver : string) (dir : path) : Process := {|
  platform := "win32";
  version := ver;
  execPath := node_exe;
  argv := ["C:\node\node.exe"; "C:\tool\cli.js"; "app.js"];
  cwd := dir;
  dirname := tool_dir
|}.

Definition process : Process := process_at "v20.11.0" work_dir.

(** The same host under Node 18. *)
Definition node18 : Process := process_at "v18.1.0" work_dir.

(** A build tool that wraps the staged script into a blob, a patcher that
    appends the blob to the executable, a registrar that succeeds. Any
    other command line fails. *)
Definition command (cmd : string) (shell : option string) (dir : path)
    (fs : FS) : bool * FS :=
  if String.eqb cmd sea_command then
    match fs !! path_join dir scriptName with
    | Some (File script) =>
      (true, <[path_join dir seaBlobName := File (Buffer_from "SEA" ++ script)]> fs)
    | _ => (false, fs)
    end
  else if String.eqb cmd postject_command then
    match fs !! path_join dir exeName, fs !! path_join dir seaBlobName with
    | Some (File exe), Some (File blob) =>
      (true, <[path_join dir exeName := File (exe ++ blob)]> fs)
    | _, _ => (false, fs)
    end
  else match shell with
       | Some _ => (true, fs)
       | None => (false, fs)
       end.

(** A build tool that always fails, leaving the disk as it is. *)
Definition broken_command (cmd : string) (shell : option string) (dir : path)
    (fs : FS) : bool * FS := (false, fs).

Definition child (st : exit_status) (file : string) (args : list string)
    (dir : path) (fs : FS) : child_result :=
  ChildRan st (Buffer_from "hello") [] fs.

Definition host_exiting (st : exit_status) : Host := {|
  run_command := command;
  run_child := child st;
  read_sizes := fun _ _ => [3; 0; 15]%nat
|}.

Definition host : Host := host_exiting (Exited 0).

Definition broken_host : Host := {|
  run_command := broken_command;
  run_child := child (Exited 0);
  read_sizes := fun _ _ => []
|}.

(** A disk with the tool installed and nothing built yet. *)
Definition fresh : FS :=
  list_to_map
    [ (["C:"], Dir);
      (["C:"; "tool"], Dir);
      (["C:"; "tool"; "msix-node.js"], File (Buffer_from "main();"));
      (["C:"; "node"], Dir);
      (node_exe, File (Buffer_from "MZ"));
      (["C:"; "work"], Dir) ].

(** The disk after a first full run. *)
Definition built : FS := disk (main host process fresh).

(** The blob of that run. *)
Definition blob : bytes :=
  match built !! blob_path process with
  | Some (File c) => c
  | _ => []
  end.

(** The disk of a finished build whose blob is out of date. *)
Definition stale : FS :=
  <[blob_path process := File (Buffer_from "SEAold();")]> built.

(** The disk the build tool leaves when the assemble step runs on [fs]. *)
Definition after_build (fs : FS) : FS :=
  (command sea_command None (outDir process) (with_config process fs)).2.

(** Another disk, where a copy of the blob lies elsewhere. *)
Definition copy_path : path := ["D:"; "copy.blob"].
Definition other_disk : FS := {[ copy_path := File blob ]}.

End Demo.

(** ** [msix-node.js], the script that is packaged *)

Module MsixNode.

(** What the packaged script finds around it: [path.join] of two strings,
    and [nodeRequire], the loader [createRequire(__filename)] returns,
    which runs the module at a path. *)
Record Runtime := {
  join : string -> string -> string;
  load : string -> M unit
}.

(** [isPathSeparator] and [isWindowsDeviceRoot] of [path.win32]. *)
Definition is_path_sep (c : ascii) : bool :=
  let n := N_of_ascii c in ((n =? 47) || (n =? 92))%N.

Definition is_device_root (c : ascii) : bool :=
  let n := N_of_ascii c in
  (((65 <=? n) && (n <=? 90)) || ((97 <=? n) && (n <=? 122)))%N.

(** [path.isAbsolute(p)] on win32: a leading separator, or a drive letter,
    a colon and a separator. *)
Definition isAbsolute (p : string) : bool :=
  match p with
  | EmptyString => false
  | String c0 rest =>
    is_path_sep c0 ||
    match rest with
    | String c1 (String c2 _) =>
      is_device_root c0 && Ascii.eqb c1 ":" && is_path_sep c2
    | _ => false
    end
  end.

(** What [path.isAbsolute(undefined)] throws. *)
Definition path_type_error : js_error :=
  JsError ("The " +:+ dq +:+ "path" +:+ dq +:+
           " argument must be of type string. Received undefined").

Definition main (rt : Runtime) (process : Process) : M unit :=
  let args := drop 3 (argv process) in
  (* Currently we're only accepting a script as the first argument. *)
  match head args with
  | None => throw path_type_error
  | Some script =>
    let scriptPath :=
      if isAbsolute script then script
      else join rt (path_to_string (cwd process)) script in
    load rt scriptPath
  end.

End MsixNode.

(** ** What the further properties speak about *)

(** The script that is staged, and what is put before it. *)
Definition source_path (process : Process) : path :=
  path_join (dirname process) "msix-node.js".

Definition preload (process : Process) : string :=
  nl +:+ "__sea = true;" +:+ nl +:+
  "__srcdirname = " +:+ JSON_stringify (path_to_string (dirname process))
    +:+ ";" +:+ nl.

(** The workspace is there as a directory, or can be made. *)
Definition workspace_ready (process : Process) (fs : FS) : bool :=
  match fs !! outDir process with
  | Some Dir => true
  | Some (File _) => false
  | None => is_dir fs (dirname process)
  end.

(** The disk once the stager has seen to the workspace. *)
Definition with_workspace (process : Process) (fs : FS) : FS :=
  match fs !! outDir process with
  | Some _ => fs
  | None => <[outDir process := Dir]> fs
  end.

(** Well-formed UTF-8: the byte sequences that [readFile(p, 'utf8')] hands
    over and [writeFile] writes back unchanged. *)
Definition utf8_cont (n : N) : bool := ((128 <=? n) && (n <=? 191))%N.

Definition utf8_second3 (n0 n1 : N) : bool :=
  (if n0 =? 224 then (160 <=? n1) && (n1 <=? 191)
   else if n0 =? 237 then (128 <=? n1) && (n1 <=? 159)
   else utf8_cont n1)%N.

Definition utf8_second4 (n0 n1 : N) : bool :=
  (if n0 =? 240 then (144 <=? n1) && (n1 <=? 191)
   else if n0 =? 244 then (128 <=? n1) && (n1 <=? 143)
   else utf8_cont n1)%N.

Fixpoint utf8_valid (l : bytes) : bool :=
  match l with
  | [] => true
  | b0 :: l1 =>
    let n0 := Byte.to_N b0 in
    if (n0 <? 128)%N then utf8_valid l1
    else
      match l1 with
      | [] => false
      | b1 :: l2 =>
        let n1 := Byte.to_N b1 in
        if ((194 <=? n0) && (n0 <=? 223))%N then utf8_cont n1 && utf8_valid l2
        else
          match l2 with
          | [] => false
          | b2 :: l3 =>
            let n2 := Byte.to_N b2 in
            if ((224 <=? n0) && (n0 <=? 239))%N
            then utf8_second3 n0 n1 && utf8_cont n2 && utf8_valid l3
            else
              match l3 with
              | [] => false
              | b3 :: l4 =>
                ((240 <=? n0) && (n0 <=? 244))%N && utf8_second4 n0 n1
                && utf8_cont n2 && utf8_cont (Byte.to_N b3) && utf8_valid l4
              end
          end
      end
  end.

(** A [console.error] line. *)
Definition is_error_log (ev : event) : bool :=
  match ev with
  | EvConsole level _ => String.eqb level "error"
  | _ => false
  end.

(** The message of the stage of [main] that threw, when one of the three
    stages inside a [try] did. *)
Definition failed_stage `{StreamHash} (host : Host) (process : Process)
    (fs : FS) : option string :=
  if String.eqb (platform process) "win32" then
    let r1 := prepareScript process fs in
    match res r1 with
    | Throw _ => Some "Error compiling msix-node script."
    | Crash _ => None
    | Ok _ =>
      let r2 := createTestSea host process (disk r1) in
      match res r2 with
      | Throw _ => Some "Error creating node executable."
      | Crash _ => None
      | Ok false => None
      | Ok true =>
        match res (registerAppx host process (disk r2)) with
        | Throw _ => Some "Error registering AppX package."
        | _ => None
        end
      end
    end
  else None.

(** The value of a hex digit, and the bytes a hex string stands for
    ([Buffer.from(s, 'hex')] on a string of full pairs). *)
Definition hex_value (c : ascii) : option N :=
  let n := N_of_ascii c in
  if ((48 <=? n) && (n <=? 57))%N then Some (n - 48)%N
  else if ((97 <=? n) && (n <=? 102))%N then Some (n - 87)%N
  else None.

Fixpoint bytes_of_hex (s : string) : option bytes :=
  match s with
  | EmptyString => Some []
  | String hi (String lo s') =>
    match hex_value hi, hex_value lo, bytes_of_hex s' with
    | Some h, Some l, Some rest =>
      match Byte.of_N (16 * h + l) with
      | Some b => Some (b :: rest)
      | None => None
      end
    | _, _, _ => None
    end
  | String _ EmptyString => None
  end.

(** The characters of a string literal back from its escaped form: the
    reading of the escapes [JSON.stringify] writes. *)
Definition unescape_letter (c : ascii) : option ascii :=
  let n := N_of_ascii c in
  if (n =? 98)%N then Some (ascii_of_N 8)
  else if (n =? 116)%N then Some (ascii_of_N 9)
  else if (n =? 110)%N then Some (ascii_of_N 10)
  else if (n =? 102)%N then Some (ascii_of_N 12)
  else if (n =? 114)%N then Some (ascii_of_N 13)
  else if (n =? 34)%N then Some c
  else if (n =? 92)%N then Some c
  else None.

Fixpoint json_unescape_all (s : string) : option string :=
  match s with
  | EmptyString => Some ""
  | String c s' =>
    if (N_of_ascii c =? 92)%N then
      match s' with
      | String "u" (String "0" (String "0" (String hi (String lo s'')))) =>
        match hex_value hi, hex_value lo, json_unescape_all s'' with
        | Some h, Some l, Some rest => Some (String (ascii_of_N (16 * h + l)) rest)
        | _, _, _ => None
        end
      | String e s'' =>
        match unescape_letter e, json_unescape_all s'' with
        | Some x, Some rest => Some (String x rest)
        | _, _ => None
        end
      | EmptyString => None
      end
    else if (N_of_ascii c =? 34)%N then None
    else match json_unescape_all s' with
         | Some rest => Some (String c rest)
         | None => None
         end
  end.

(** How often a character occurs in a string. *)
Fixpoint count_char (x : ascii) (s : string) : nat :=
  match s with
  | EmptyString => 0
  | String c s' => (if Ascii.eqb c x then 1 else 0) + count_char x s'
  end.

(** [/[\x00-\x1f]/] *)
Definition is_control (c : ascii) : bool := (N_of_ascii c <? 32)%N.

(** ** More hosts, to run the further properties *)

Module Scenario.

(** The disk once the script is staged, before any build. *)
Definition staged : FS := disk (prepareScript Demo.process Demo.fresh).

(** A disk where the tool is installed without its [msix-node.js]. *)
Definition no_source : FS := delete (source_path Demo.process) Demo.fresh.

(** A build tool that exits with 0 and writes no blob. *)
Definition silent_host : Host := {|
  run_command := fun _ _ _ fs => (true, fs);
  run_child := Demo.child (Exited 0);
  read_sizes := fun _ _ => []
|}.

(** The host of [Demo] with a patcher that fails. *)
Definition patch_fails (cmd : string) (shell : option string) (dir : path)
    (fs : FS) : bool * FS :=
  if String.eqb cmd postject_command then (false, fs)
  else Demo.command cmd shell dir fs.

Definition unpatched_host : Host := {|
  run_command := patch_fails;
  run_child := Demo.child (Exited 0);
  read_sizes := fun _ _ => [7]%nat
|}.

(** The host of [Demo] with a registrar that fails. *)
Definition register_fails (cmd : string) (shell : option string) (dir : path)
    (fs : FS) : bool * FS :=
  if String.eqb cmd register_command then (false, fs)
  else Demo.command cmd shell dir fs.

Definition unregistered_host : Host := {|
  run_command := register_fails;
  run_child := Demo.child (Exited 0);
  read_sizes := fun _ _ => [7]%nat
|}.

(** The three disks of a run over [Demo.stale] whose patcher fails, and of
    the run after it: after the build, after the failed patch, after the
    second build. *)
Definition rebuilt : FS :=
  (run_command unpatched_host sea_command None (outDir Demo.process)
     (with_config Demo.process Demo.stale)).2.

Definition unpatched : FS :=
  (run_command unpatched_host postject_command None (outDir Demo.process)
     (disk (fs_cp (execPath Demo.process) (exe_path Demo.process) rebuilt))).2.

Definition rebuilt_again : FS :=
  (run_command unpatched_host sea_command None (outDir Demo.process)
     (with_config Demo.process unpatched)).2.

(** The packaged script's surroundings: [join] puts a backslash between,
    the loader does nothing. *)
Definition runtime : MsixNode.Runtime := {|
  MsixNode.join := fun a b => a +:+ "\" +:+ b;
  MsixNode.load := fun _ => ret tt
|}.

(** The packaged program as [runExe] starts it: the runtime puts the path
    of the executable twice before the arguments it was given. *)
Definition child_process (cli : Process) : Process := {|
  platform := platform cli;
  version := version cli;
  execPath := exe_path cli;
  argv := "msixnode.exe" :: "msixnode.exe" :: tail (argv cli);
  cwd := cwd cli;
  dirname := outDir cli
|}.

End Scenario.

(** * Properties *)

(** ** MD5 on known inputs *)

Example md5_empty :
  hex_of_bytes (digest_of []) = "d41d8cd98f00b204e9800998ecf8427e".
Proof. vm_compute. reflexivity. Qed.

Example md5_abc :
  hex_of_bytes (digest_of (Buffer_from "abc")) = "900150983cd24fb0d6963f7d28e17f72".
Proof. vm_compute. reflexivity. Qed.

Example md5_two_blocks :
  hex_of_bytes (digest_of (repeat Byte.x61 130)) = "e016e4ccc7fdaea56fc377600b58c4cb".
Proof. vm_compute. reflexivity. Qed.

Example md5_chunked :
  hex_of_bytes (hash_digest (fold_left hash_update
     [repeat Byte.x61 3; repeat Byte.x61 70; repeat Byte.x61 57] hash_init))
  = "e016e4ccc7fdaea56fc377600b58c4cb".
Proof. vm_compute. reflexivity. Qed.

(** ** MD5 is a lawful hash object *)

Module MD5_facts.
Import MD5.

Lemma absorb_short fuel r data :
  length data < 64 -> absorb fuel r data = (r, data).
Proof.
  intros Hlen. destruct fuel as [|fuel]; cbn [absorb]; [done|].
  destruct (Nat.leb_spec 64 (length data)); [lia | done].
Qed.

(** Any fuel that covers the data gives the same result. *)
Lemma absorb_fuel f1 : forall f2 r data,
  length data <= f1 -> length data <= f2 ->
  absorb f1 r data = absorb f2 r data.
Proof.
  induction f1 as [|f1 IH]; intros f2 r data H1 H2.
  - rewrite (absorb_short f2) by lia. done.
  - destruct f2 as [|f2].
    + rewrite (absorb_short (S f1)) by lia. done.
    + cbn [absorb]. destruct (Nat.leb_spec 64 (length data)); [|done].
      apply IH; rewrite length_drop; lia.
Qed.

(** Absorbing [x ++ y] is absorbing [x], then what is left of it followed
    by [y]. *)
Lemma absorb_app f : forall r x y,
  length (x ++ y) <= f ->
  absorb f r (x ++ y)
  = let '(r', rest) := absorb (length x) r x in
    absorb (length (rest ++ y)) r' (rest ++ y).
Proof.
  induction f as [|f IH]; intros r x y Hf.
  - rewrite length_app in Hf.
    assert (x = []) as -> by (destruct x; simpl in *; [done | lia]).
    assert (y = []) as -> by (destruct y; simpl in *; [done | lia]).
    done.
  - destruct (Nat.leb_spec 64 (length x)) as [Hx|Hx].
    + destruct (length x) as [|n] eqn:Hn; [lia|].
      rewrite length_app in Hf.
      cbn [absorb]. rewrite length_app, Hn.
      replace (64 <=? S n + length y)%nat with true
        by (symmetry; apply Nat.leb_le; lia).
      replace (64 <=? S n)%nat with true by (symmetry; apply Nat.leb_le; lia).
      rewrite take_app_le, drop_app_le by lia.
      rewrite IH by (rewrite length_app, length_drop; lia).
      rewrite (absorb_fuel n (length (drop 64 x)))
        by (rewrite ?length_drop; lia).
      done.
    + rewrite (absorb_short (length x)) by done.
      apply absorb_fuel; [done | lia].
Qed.

Lemma update_app s a b : update (update s a) b = update s (a ++ b).
Proof.
  unfold update at 2 3. rewrite (assoc_L (++)).
  rewrite (absorb_app _ _ (st_buf s ++ a) b) by done.
  destruct (absorb (length (st_buf s ++ a)) (st_regs s) (st_buf s ++ a))
    as [r1 rest1] eqn:E1.
  unfold update. cbn [st_buf st_regs st_count].
  destruct (absorb (length (rest1 ++ b)) r1 (rest1 ++ b)) as [r2 rest2].
  f_equal. rewrite length_app. lia.
Qed.

Lemma fold_update chunks : forall s c,
  fold_left update chunks (update s c) = update s (c ++ concat chunks).
Proof.
  induction chunks as [|c' chunks IH]; intros s c; simpl.
  - by rewrite app_nil_r.
  - rewrite update_app, IH. by rewrite (assoc_L (++)).
Qed.

End MD5_facts.

#[export] Instance md5_lawful : LawfulHash md5.
Proof.
  intros [|c chunks]; [reflexivity|].
  unfold digest_of. simpl. f_equal. apply MD5_facts.fold_update.
Qed.

(** ** The monad *)

Section Monad_facts.

Context {A B : Type}.

Lemma bind_throw (m : M A) (k : A -> M B) fs e :
  res (m fs) = Throw e ->
  bind m k fs = Run (Throw e) (disk (m fs)) (trace (m fs)).
Proof. intros E. unfold bind. by rewrite E. Qed.

Lemma bind_unfold (m : M A) (k : A -> M B) fs :
  bind m k fs
  = match res (m fs) with
    | Ok a => Run (res (k a (disk (m fs)))) (disk (k a (disk (m fs))))
                  (trace (m fs) ++ trace (k a (disk (m fs))))
    | Throw e => Run (Throw e) (disk (m fs)) (trace (m fs))
    | Crash e => Run (Crash e) (disk (m fs)) (trace (m fs))
    end.
Proof. reflexivity. Qed.

(** A step that is known in full. *)
Lemma bind_run (m : M A) (k : A -> M B) fs a fs' t :
  m fs = Run (Ok a) fs' t ->
  bind m k fs = Run (res (k a fs')) (disk (k a fs')) (t ++ trace (k a fs')).
Proof. intros E. unfold bind. by rewrite E. Qed.

(** The events of the first step come first. *)
Lemma trace_bind_prefix (m : M A) (k : A -> M B) fs :
  exists rest, trace (bind m k fs) = trace (m fs) ++ rest.
Proof.
  unfold bind. destruct (res (m fs)); simpl; eauto.
  all: exists []; by rewrite app_nil_r.
Qed.

End Monad_facts.

(** [try { m } catch (error) { console.error(msg); throw error; }] ends as
    [m] does and leaves the disk of [m]. *)
Lemma rethrow_res {A} (m : M A) msg fs :
  res (try_catch m (fun e => console "error" msg ;; throw e) fs) = res (m fs).
Proof. unfold try_catch. by destruct (res (m fs)) eqn:E. Qed.

Lemma rethrow_disk {A} (m : M A) msg fs :
  disk (try_catch m (fun e => console "error" msg ;; throw e) fs) = disk (m fs).
Proof. unfold try_catch. by destruct (res (m fs)) eqn:E. Qed.

Lemma rethrow_trace {A} (m : M A) msg fs :
  trace (try_catch m (fun e => console "error" msg ;; throw e) fs)
  = trace (m fs) ++
    match res (m fs) with
    | Throw _ => [EvConsole "error" msg]
    | _ => []
    end.
Proof.
  unfold try_catch. destruct (res (m fs)) eqn:E; simpl;
    by rewrite ?app_nil_r.
Qed.

(** ** What a computation can emit *)

Section Emits.

Context {A B : Type} (P : event -> Prop).

Lemma emits_ret (a : A) : emits_only P (ret a).
Proof. intros fs. constructor. Qed.

Lemma emits_throw e : emits_only P (throw (A:=A) e).
Proof. intros fs. constructor. Qed.

Lemma emits_emit ev : P ev -> emits_only P (emit ev).
Proof. intros Hev fs. by repeat constructor. Qed.

Lemma emits_console level msg :
  P (EvConsole level msg) -> emits_only P (console level msg).
Proof. apply emits_emit. Qed.

Lemma emits_bind (m : M A) (k : A -> M B) :
  emits_only P m -> (forall a, emits_only P (k a)) -> emits_only P (bind m k).
Proof.
  intros Hm Hk fs. unfold bind.
  destruct (res (m fs)); simpl;
    [apply Forall_app; split; [apply Hm | apply Hk] | apply Hm..].
Qed.

Lemma emits_try_catch (m : M A) (h : js_error -> M A) :
  emits_only P m -> (forall e, emits_only P (h e)) ->
  emits_only P (try_catch m h).
Proof.
  intros Hm Hh fs. unfold try_catch.
  destruct (res (m fs)); simpl;
    [apply Hm | apply Forall_app; split; [apply Hm | apply Hh] | apply Hm].
Qed.

Lemma emits_if (b : bool) (m1 m2 : M A) :
  emits_only P m1 -> emits_only P m2 -> emits_only P (if b then m1 else m2).
Proof. by destruct b. Qed.

Lemma emits_stat p : emits_only P (fs_stat p).
Proof.
  intros fs. unfold fs_stat.
  destruct p; [constructor|]. destruct (fs !! _); constructor.
Qed.

Lemma emits_readFile p : emits_only P (fs_readFile p).
Proof.
  intros fs. unfold fs_readFile.
  destruct (fs !! p) as [[]|]; constructor.
Qed.

Lemma emits_mkdir p : P (EvMkdir p) -> emits_only P (fs_mkdir p).
Proof.
  intros Hev fs. unfold fs_mkdir.
  destruct p; [by repeat constructor|].
  destruct (fs !! _); [by repeat constructor|].
  destruct (is_dir _ _); by repeat constructor.
Qed.

Lemma emits_writeFile p d : P (EvWriteFile p d) -> emits_only P (fs_writeFile p d).
Proof.
  intros Hev fs. unfold fs_writeFile.
  destruct p; [by repeat constructor|].
  destruct (fs !! _) as [[]|]; try destruct (is_dir _ _); by repeat constructor.
Qed.

Lemma emits_cp src dst : P (EvCp src dst) -> emits_only P (fs_cp src dst).
Proof.
  intros Hev fs. unfold fs_cp.
  destruct (fs !! src) as [[]|]; [|by repeat constructor..].
  destruct (decide _); [by repeat constructor|].
  destruct (is_dir _ _); [by repeat constructor|].
  destruct (mkdirp _ _); by repeat constructor.
Qed.

End Emits.

Section Emits_host.

Context `{StreamHash} (host : Host) (process : Process) (P : event -> Prop).

Lemma emits_exec cmd shell dir :
  P (EvExec cmd shell dir) -> emits_only P (exec host cmd shell dir).
Proof.
  intros Hev fs. unfold exec.
  destruct (run_command _ _ _ _ _). by repeat constructor.
Qed.

Lemma emits_readFileChecksum p : emits_only P (readFileChecksum host p).
Proof.
  intros fs. unfold readFileChecksum.
  destruct (fs !! p) as [[]|]; constructor.
Qed.

Lemma emits_spawn file args :
  P (EvSpawn file args (cwd process)) ->
  (forall d, P (EvStdout d)) -> (forall d, P (EvStderr d)) ->
  emits_only P (spawn host process file args).
Proof.
  intros Hev Hout Herr fs. unfold spawn.
  destruct (run_child _ _ _ _ _); by repeat constructor.
Qed.

End Emits_host.

(** Breaks an [emits_only] goal down to the events of the script. *)
Ltac emits :=
  repeat first
    [ progress cbv zeta
    | apply emits_bind; [|intros ?]
    | apply emits_try_catch; [|intros ?]
    | apply emits_if
    | apply emits_ret | apply emits_throw
    | apply emits_stat | apply emits_readFile | apply emits_readFileChecksum
    | apply emits_console | apply emits_mkdir | apply emits_writeFile
    | apply emits_cp | apply emits_exec | apply emits_spawn
    | match goal with
      | |- emits_only _ (match ?x with _ => _ end) => destruct x
      end ].

Lemma calls_app kind t1 t2 : calls kind (t1 ++ t2) = calls kind t1 + calls kind t2.
Proof. unfold calls. by rewrite List.filter_app, length_app. Qed.

Lemma calls_none kind t :
  Forall (fun ev => kind ev = false) t -> calls kind t = 0.
Proof.
  unfold calls. induction 1 as [|ev t Hev _ IH]; simpl; [done|].
  by rewrite Hev.
Qed.

(** ** The checksum *)

Lemma concat_split_chunks sizes : forall data,
  concat (split_chunks sizes data) = data.
Proof.
  induction sizes as [|n sizes IH]; intros [|b data]; simpl; try done.
  - by rewrite app_nil_r.
  - by rewrite IH, take_drop.
Qed.

Lemma all_chars_app P s1 s2 :
  all_chars P (s1 +:+ s2) = all_chars P s1 && all_chars P s2.
Proof. induction s1 as [|c s1 IH]; simpl; [done|]. by rewrite IH, andb_assoc. Qed.

Lemma hex_digit_lower n : is_lower_hex (hex_digit n) = true.
Proof.
  destruct n as [|p]; [done|].
  do 4 (try destruct p as [p|p|]); reflexivity.
Qed.

Lemma hex_of_bytes_lower b : all_chars is_lower_hex (hex_of_bytes b) = true.
Proof.
  induction b as [|x b IH]; [done|].
  cbn [hex_of_bytes]. rewrite all_chars_app, IH. unfold hex_byte.
  cbn [all_chars]. by rewrite !hex_digit_lower.
Qed.

Section Checksum.

Context {H : StreamHash} {L : LawfulHash H}.

(** However the stream cuts the file, the promise resolves with the digest
    of its bytes; nothing is written. *)
Lemma readFileChecksum_file (host : Host) (p : path) (fs : FS) (c : bytes) :
  fs !! p = Some (File c) ->
  readFileChecksum host p fs = Run (Ok (checksum c)) fs [].
Proof.
  intros E. unfold readFileChecksum, stream_digest, checksum. rewrite E.
  by rewrite hash_chunks, concat_split_chunks.
Qed.

(** C9: the checksum is a function of the bytes of the file. Two
    computations over the same bytes, whatever the path, the rest of the
    disk and the chunks the read stream delivers, resolve with the same
    digest, which is a string of lowercase hex digits. *)
Theorem readFileChecksum_deterministic (host1 host2 : Host) (fs1 fs2 : FS)
    (p1 p2 : path) (c : bytes) :
  fs1 !! p1 = Some (File c) ->
  fs2 !! p2 = Some (File c) ->
  exists d,
    readFileChecksum host1 p1 fs1 = Run (Ok d) fs1 [] /\
    readFileChecksum host2 p2 fs2 = Run (Ok d) fs2 [] /\
    d = hex_of_bytes (digest_of c) /\
    all_chars is_lower_hex d = true.
Proof.
  intros E1 E2. exists (checksum c).
  rewrite (readFileChecksum_file _ _ _ _ E1), (readFileChecksum_file _ _ _ _ E2).
  repeat split. apply hex_of_bytes_lower.
Qed.

End Checksum.

(** The blob of a finished build read at its place with one chunking, and
    a copy of it elsewhere on another disk read with another. *)
Lemma readFileChecksum_deterministic_witness :
  exists d,
    readFileChecksum Demo.host (blob_path Demo.process) Demo.built
      = Run (Ok d) Demo.built [] /\
    readFileChecksum Demo.broken_host Demo.copy_path Demo.other_disk
      = Run (Ok d) Demo.other_disk [] /\
    d = hex_of_bytes (digest_of Demo.blob) /\
    all_chars is_lower_hex d = true.
Proof.
  apply (readFileChecksum_deterministic (H:=md5)); vm_compute; reflexivity.
Defined.

(** ** Paths and single steps *)

Lemma path_join_cons dir name : exists c p, path_join dir name = c :: p.
Proof. destruct dir; simpl; eauto. Qed.

Lemma parent_path_join dir name : parent (path_join dir name) = dir.
Proof. apply removelast_last. Qed.

Lemma path_join_inj dir a b : path_join dir a = path_join dir b -> a = b.
Proof. intros E. by apply app_inv_head in E as [= ->]. Qed.

Lemma fs_writeFile_run (dir : path) (name : string) (d : bytes) (fs : FS) :
  is_dir fs dir = true ->
  fs !! path_join dir name <> Some Dir ->
  fs_writeFile (path_join dir name) d fs
  = Run (Ok tt) (<[path_join dir name := File d]> fs)
        [EvWriteFile (path_join dir name) d].
Proof.
  intros Hdir Hfile. unfold fs_writeFile.
  rewrite parent_path_join, Hdir.
  destruct (path_join_cons dir name) as (c & p & E). rewrite E in *.
  destruct (fs !! (c :: p)) as [[]|]; done.
Qed.

Lemma exec_run (host : Host) (cmd : string) (shell : option string)
    (dir : path) (fs fs' : FS) (ok : bool) :
  run_command host cmd shell dir fs = (ok, fs') ->
  exec host cmd shell dir fs
  = Run (if ok then Ok tt else Throw (ExecError cmd)) fs' [EvExec cmd shell dir].
Proof. intros E. unfold exec. by rewrite E. Qed.

Lemma exec_ok (host : Host) (cmd : string) (shell : option string)
    (dir : path) (fs fs' : FS) :
  run_command host cmd shell dir fs = (true, fs') ->
  exec host cmd shell dir fs = Run (Ok tt) fs' [EvExec cmd shell dir].
Proof. apply exec_run. Qed.

Lemma exec_fail (host : Host) (cmd : string) (shell : option string)
    (dir : path) (fs fs' : FS) :
  run_command host cmd shell dir fs = (false, fs') ->
  exec host cmd shell dir fs
  = Run (Throw (ExecError cmd)) fs' [EvExec cmd shell dir].
Proof. apply exec_run. Qed.

Lemma strict_eq_true prev cur : strict_eq prev cur = true <-> prev = Some cur.
Proof.
  destruct prev as [p|]; simpl; [|by split].
  rewrite String.eqb_eq. split; [by intros -> | by intros [= ->]].
Qed.

Section Assemble.

Context {H : StreamHash} {L : LawfulHash H}.
Variable host : Host.
Variable process : Process.

(** The first [try] block of [createTestSea]: it never fails, and gives the
    digest of the blob that is there, if one is. *)
Lemma previous_digest_run (fs : FS) :
  try_catch
    (seaBlobStat <- fs_stat (path_join (outDir process) seaBlobName) ;;
     if isFile seaBlobStat
     then (c <- readFileChecksum host (path_join (outDir process) seaBlobName) ;;
           ret (Some c))
     else ret None)
    (fun _ => ret None) fs
  = Run (Ok (previous_digest process fs)) fs [].
Proof.
  unfold previous_digest, blob_path, try_catch, bind, fs_stat.
  destruct (path_join_cons (outDir process) seaBlobName) as (c & p & E).
  rewrite E.
  destruct (fs !! (c :: p)) as [[content|]|] eqn:Hblob; simpl; try done.
  by rewrite (readFileChecksum_file _ _ _ _ Hblob).
Qed.

(** Writing the config leaves the blob as it was. *)
Lemma previous_digest_with_config (fs : FS) :
  previous_digest process (with_config process fs) = previous_digest process fs.
Proof.
  unfold previous_digest, with_config. rewrite lookup_insert_ne; [done|].
  intros E. by apply path_join_inj in E.
Qed.

(** Writing the config leaves the executable as it was. *)
Lemma with_config_exe (fs : FS) :
  with_config process fs !! exe_path process = fs !! exe_path process.
Proof.
  unfold with_config. rewrite lookup_insert_ne; [done|].
  intros E. by apply path_join_inj in E.
Qed.

(** The assemble step up to the comparison of the digests, when the gate
    lets the version through, the config can be written, the build tool
    exits with 0 and its blob is there. *)
Lemma createTestSea_built (fs fs2 : FS) (blob : bytes) :
  node_v1x (version process) = false ->
  is_dir fs (outDir process) = true ->
  fs !! config_path process <> Some Dir ->
  run_command host sea_command None (outDir process) (with_config process fs)
    = (true, fs2) ->
  fs2 !! blob_path process = Some (File blob) ->
  createTestSea host process fs
  = let before :=
      [EvWriteFile (config_path process) (Buffer_from sea_config);
       EvExec sea_command None (outDir process)] in
    if strict_eq (previous_digest process fs) (checksum blob)
    then Run (Ok false) fs2
           (before ++
            [EvConsole "debug" "Skipping msixnode.exe rebuild (blob checksums match)"])
    else let r := embedding host process fs2 in
         Run (res r) (disk r) (before ++ trace r).
Proof.
  intros Hver Hdir Hcfg Hbuild Hblob. unfold createTestSea. rewrite Hver.
  erewrite bind_run by reflexivity.
  erewrite bind_run by (apply fs_writeFile_run; [exact Hdir | exact Hcfg]).
  erewrite bind_run by apply previous_digest_run.
  erewrite bind_run by (apply exec_ok; exact Hbuild).
  erewrite bind_run by (apply readFileChecksum_file; exact Hblob).
  cbn [res disk trace app].
  change (<[path_join (outDir process) "sea-config.json" :=
            File (Buffer_from sea_config)]> fs) with (with_config process fs).
  rewrite previous_digest_with_config.
  by destruct (strict_eq _ _).
Qed.

Lemma previous_digest_Some (fs : FS) (d : string) :
  previous_digest process fs = Some d
  <-> exists old, fs !! blob_path process = Some (File old) /\ checksum old = d.
Proof.
  unfold previous_digest. split.
  - destruct (fs !! blob_path process) as [[old|]|]; [|done..].
    intros [= <-]. eauto.
  - by intros (old & -> & <-).
Qed.

Lemma fs_cp_trace (src dst : path) (fs : FS) :
  trace (fs_cp src dst fs) = [EvCp src dst].
Proof.
  unfold fs_cp. destruct (fs !! src) as [[]|]; [|done..].
  destruct (decide _); [done|]. destruct (is_dir _ _); [done|].
  by destruct (mkdirp _ _).
Qed.

(** The embedding starts with the copy of the host binary. *)
Lemma embedding_starts_with_copy (fs : FS) :
  exists rest,
    trace (embedding host process fs)
    = EvCp (execPath process) (exe_path process) :: rest.
Proof.
  unfold embedding.
  destruct (trace_bind_prefix
    (fs_cp (execPath process) (path_join (outDir process) exeName))
    (fun _ => console "info" ("Building " +:+ exeName +:+ "…") ;;
              exec host postject_command None (outDir process) ;; ret true) fs)
    as [rest ->].
  rewrite fs_cp_trace. by exists rest.
Qed.

(** When the copy and the patcher succeed, the embedding returns [true]. *)
Lemma embedding_run (fs fs3 fs4 : FS) :
  fs_cp (execPath process) (exe_path process) fs
    = Run (Ok tt) fs3 [EvCp (execPath process) (exe_path process)] ->
  run_command host postject_command None (outDir process) fs3 = (true, fs4) ->
  embedding host process fs
  = Run (Ok true) fs4
      [EvCp (execPath process) (exe_path process);
       EvConsole "info" "Building msixnode.exe…";
       EvExec postject_command None (outDir process)].
Proof.
  intros Hcp Hpatch. unfold embedding.
  erewrite bind_run by exact Hcp.
  erewrite bind_run by reflexivity.
  erewrite bind_run by (apply exec_ok; exact Hpatch).
  reflexivity.
Qed.

(** C1: once the blob is built, the assemble step returns [false] exactly
    when a blob of a previous run was there and its digest is the digest of
    the fresh blob, and then it does no embedding. In every other case,
    among them a first run, where no blob was there, it goes on to the
    embedding: the host binary is copied, and when the copy and the patcher
    succeed it returns [true]. *)
Theorem createTestSea_rebuilt (fs fs2 : FS) (blob : bytes) :
  node_v1x (version process) = false ->
  is_dir fs (outDir process) = true ->
  fs !! config_path process <> Some Dir ->
  run_command host sea_command None (outDir process) (with_config process fs)
    = (true, fs2) ->
  fs2 !! blob_path process = Some (File blob) ->
  let r := createTestSea host process fs in
  let same :=
    exists old, fs !! blob_path process = Some (File old)
                /\ checksum old = checksum blob in
  let before :=
    [EvWriteFile (config_path process) (Buffer_from sea_config);
     EvExec sea_command None (outDir process)] in
  (res r = Ok false <-> same) /\
  (same -> calls is_embedding (trace r) = 0) /\
  (fs !! blob_path process = None -> ~ same) /\
  (~ same ->
     (exists rest,
        trace r = before ++ EvCp (execPath process) (exe_path process) :: rest) /\
     (forall fs3 fs4,
        fs_cp (execPath process) (exe_path process) fs2
          = Run (Ok tt) fs3 [EvCp (execPath process) (exe_path process)] ->
        run_command host postject_command None (outDir process) fs3 = (true, fs4) ->
        r = Run (Ok true) fs4
              (before ++
               [EvCp (execPath process) (exe_path process);
                EvConsole "info" "Building msixnode.exe…";
                EvExec postject_command None (outDir process)]))).
Proof.
  intros Hver Hdir Hcfg Hbuild Hblob r same before.
  assert (Hsame : same <-> strict_eq (previous_digest process fs) (checksum blob) = true)
    by (rewrite strict_eq_true; symmetry; apply previous_digest_Some).
  pose proof (createTestSea_built fs fs2 blob Hver Hdir Hcfg Hbuild Hblob) as Hrun.
  fold r in Hrun. cbv zeta in Hrun.
  destruct (strict_eq (previous_digest process fs) (checksum blob)) eqn:Hcmp.
  - assert same as Hyes by (by apply Hsame).
    rewrite Hrun. split; [done|]. split; [done|]. split.
    + intros E (old & Hold & _). by rewrite E in Hold.
    + intros Hno. by destruct Hno.
  - assert (~ same) as Hno by (rewrite Hsame; done).
    split; [|split; [done|split]].
    + split; [|done]. rewrite Hrun. cbn [res]. unfold embedding, bind.
      repeat (match goal with |- context [match ?x with _ => _ end] =>
                destruct x; cbn [res] end); done.
    + intros E (old & Hold & _). by rewrite E in Hold.
    + intros _. split.
      * rewrite Hrun. cbn [trace].
        destruct (embedding_starts_with_copy fs2) as [rest ->]. by exists rest.
      * intros fs3 fs4 Hcp Hpatch. rewrite Hrun.
        by rewrite (embedding_run fs2 fs3 fs4 Hcp Hpatch).
Qed.

(** C2: when the blob of the previous run and the fresh blob have the same
    digest, the assemble step returns [false] and writes nothing after the
    build tool has ended: no copy of the host binary, no patcher. With a
    build tool that leaves the final executable alone, the executable on
    disk is what it was. *)
Theorem createTestSea_skip_untouched (fs fs2 : FS) (old blob : bytes) :
  node_v1x (version process) = false ->
  is_dir fs (outDir process) = true ->
  fs !! config_path process <> Some Dir ->
  run_command host sea_command None (outDir process) (with_config process fs)
    = (true, fs2) ->
  fs2 !! blob_path process = Some (File blob) ->
  fs !! blob_path process = Some (File old) ->
  checksum old = checksum blob ->
  fs2 !! exe_path process = with_config process fs !! exe_path process ->
  let r := createTestSea host process fs in
  res r = Ok false /\
  disk r = fs2 /\
  disk r !! exe_path process = fs !! exe_path process /\
  calls is_embedding (trace r) = 0 /\
  trace r =
    [EvWriteFile (config_path process) (Buffer_from sea_config);
     EvExec sea_command None (outDir process);
     EvConsole "debug" "Skipping msixnode.exe rebuild (blob checksums match)"].
Proof.
  intros Hver Hdir Hcfg Hbuild Hblob Hold Hsum Hframe r.
  pose proof (createTestSea_built fs fs2 blob Hver Hdir Hcfg Hbuild Hblob) as Hrun.
  fold r in Hrun. cbv zeta in Hrun.
  rewrite with_config_exe in Hframe.
  replace (strict_eq (previous_digest process fs) (checksum blob)) with true in Hrun.
  - by rewrite Hrun.
  - symmetry. apply strict_eq_true, previous_digest_Some. eauto.
Qed.

(** C7: when the build tool fails, the assemble step throws its error right
    there: the events of the run are the config write and the build tool,
    with no copy of the host binary and no patcher, and the disk is as the
    build tool left it. *)
Theorem createTestSea_build_failure (fs fs2 : FS) :
  node_v1x (version process) = false ->
  is_dir fs (outDir process) = true ->
  fs !! config_path process <> Some Dir ->
  run_command host sea_command None (outDir process) (with_config process fs)
    = (false, fs2) ->
  let r := createTestSea host process fs in
  r = Run (Throw (ExecError sea_command)) fs2
        [EvWriteFile (config_path process) (Buffer_from sea_config);
         EvExec sea_command None (outDir process)] /\
  calls is_embedding (trace r) = 0 /\
  (fs2 !! exe_path process = with_config process fs !! exe_path process ->
   disk r !! exe_path process = fs !! exe_path process).
Proof.
  intros Hver Hdir Hcfg Hbuild r.
  assert (Hrun : r = Run (Throw (ExecError sea_command)) fs2
        [EvWriteFile (config_path process) (Buffer_from sea_config);
         EvExec sea_command None (outDir process)]).
  { unfold r, createTestSea. rewrite Hver.
    erewrite bind_run by reflexivity.
    erewrite bind_run by (apply fs_writeFile_run; [exact Hdir | exact Hcfg]).
    erewrite bind_run by apply previous_digest_run.
    pose proof (exec_fail _ _ _ _ _ _ Hbuild) as Hexec.
    unfold with_config, config_path in Hexec.
    erewrite bind_throw by (rewrite Hexec; reflexivity).
    by rewrite Hexec. }
  rewrite Hrun. split; [done|]. split; [done|].
  cbn [disk]. intros ->. apply with_config_exe.
Qed.

End Assemble.

(** Settles a premise about a concrete run by running it; the disk a
    command leaves is compared as it stands, without being spelled out. *)
Ltac by_running :=
  first [ apply injective_projections; [vm_compute; reflexivity | reflexivity]
        | vm_compute; done ].

(** A second run over an out-of-date blob: the digests differ, the
    executable is rebuilt. *)
Lemma createTestSea_rebuilt_witness :
  (res (createTestSea Demo.host Demo.process Demo.stale) = Ok false
   <-> exists old, Demo.stale !! blob_path Demo.process = Some (File old)
                   /\ checksum old = checksum Demo.blob)
  /\ res (createTestSea Demo.host Demo.process Demo.stale) = Ok true.
Proof.
  pose proof (createTestSea_rebuilt (H:=md5) Demo.host Demo.process Demo.stale
                (Demo.after_build Demo.stale) Demo.blob) as W.
  cbv zeta in W.
  destruct W as (Hfalse & _ & _ & _); [by_running..|].
  split; [exact Hfalse|]. vm_compute. reflexivity.
Defined.

(** A second run over an unchanged script: the blob is the same, the
    executable stays. *)
Lemma createTestSea_skip_untouched_witness :
  res (createTestSea Demo.host Demo.process Demo.built) = Ok false /\
  disk (createTestSea Demo.host Demo.process Demo.built) !! exe_path Demo.process
    = Demo.built !! exe_path Demo.process.
Proof.
  pose proof (createTestSea_skip_untouched (H:=md5) Demo.host Demo.process
                Demo.built (Demo.after_build Demo.built) Demo.blob Demo.blob) as W.
  cbv zeta in W.
  destruct W as (Hres & _ & Hexe & _); [by_running..|].
  split; [exact Hres | exact Hexe].
Defined.

(** A run with a build tool that fails. *)
Lemma createTestSea_build_failure_witness :
  res (createTestSea Demo.broken_host Demo.process Demo.built)
    = Throw (ExecError sea_command) /\
  calls is_embedding (trace (createTestSea Demo.broken_host Demo.process Demo.built)) = 0.
Proof.
  pose proof (createTestSea_build_failure (H:=md5) Demo.broken_host Demo.process
                Demo.built (with_config Demo.process Demo.built)) as W.
  cbv zeta in W.
  destruct W as (Hrun & Hcalls & _); [by_running..|].
  split; [by rewrite Hrun | exact Hcalls].
Defined.

(** ** The version gate *)

Lemma is_digit_pretty_N_char x : is_digit (pretty_N_char x) = true.
Proof.
  destruct x as [|p]; [done|].
  do 4 (try destruct p as [p|p|]); reflexivity.
Qed.

Lemma pretty_N_go_digits x : forall s,
  all_chars is_digit s = true -> all_chars is_digit (pretty_N_go x s) = true.
Proof.
  induction (N.lt_wf_0 x) as [x _ IH]; intros s Hs.
  destruct (decide (x = 0)%N) as [->|Hx]; [by rewrite pretty_N_go_0|].
  rewrite pretty_N_go_step by lia.
  apply IH; [apply N.div_lt; lia|].
  cbn [all_chars]. by rewrite is_digit_pretty_N_char, Hs.
Qed.

Lemma pretty_N_go_length x : forall s,
  String.length s <= String.length (pretty_N_go x s).
Proof.
  induction (N.lt_wf_0 x) as [x _ IH]; intros s.
  destruct (decide (x = 0)%N) as [->|Hx]; [by rewrite pretty_N_go_0|].
  rewrite pretty_N_go_step by lia.
  etrans; [|apply IH, N.div_lt; lia]. simpl. lia.
Qed.

(** A number prints as digits only. *)
Lemma pretty_N_digits (x : N) : all_chars is_digit (pretty x) = true.
Proof.
  unfold pretty, pretty_N. destruct (decide (x = 0)%N); [done|].
  by apply pretty_N_go_digits.
Qed.

(** One digit below 10, two digits below 100, at least three from 100 on. *)
Lemma pretty_one_digit (x : N) :
  (x < 10)%N -> pretty x = String (pretty_N_char x) "".
Proof.
  intros Hx. unfold pretty, pretty_N.
  destruct (decide (x = 0)%N) as [->|Hne]; [done|].
  rewrite pretty_N_go_step by lia.
  rewrite N.div_small, N.mod_small by lia. by rewrite pretty_N_go_0.
Qed.

Lemma pretty_two_digits (x : N) :
  (10 <= x < 100)%N ->
  pretty x = String (pretty_N_char (x / 10)) (String (pretty_N_char (x mod 10)) "").
Proof.
  intros Hx. unfold pretty, pretty_N.
  destruct (decide (x = 0)%N) as [->|Hne]; [lia|].
  assert (0 < x / 10 < 10)%N as Hq.
  { split; [apply N.div_str_pos; lia | apply N.Div0.div_lt_upper_bound; lia]. }
  rewrite pretty_N_go_step by lia.
  rewrite pretty_N_go_step by lia.
  rewrite (N.div_small (x / 10)), (N.mod_small (x / 10)) by lia.
  by rewrite pretty_N_go_0.
Qed.

Lemma pretty_three_digits (x : N) :
  (100 <= x)%N ->
  exists a b c t,
    pretty x = String a (String b (String c t)) /\ is_digit c = true.
Proof.
  intros Hx.
  pose proof (pretty_N_digits x) as Hdigits.
  assert (3 <= String.length (pretty x)) as Hlen.
  { unfold pretty, pretty_N.
    destruct (decide (x = 0)%N) as [->|Hne]; [lia|].
    assert (10 <= x / 10)%N as Hq by (apply N.div_le_lower_bound; lia).
    assert (0 < x / 10 / 10)%N as Hq' by (apply N.div_str_pos; lia).
    do 3 (rewrite pretty_N_go_step by lia).
    etrans; [|apply pretty_N_go_length]. simpl. lia. }
  destruct (pretty x) as [|a [|b [|c t]]]; simpl in Hlen; try lia.
  exists a, b, c, t. split; [done|].
  cbn [all_chars] in Hdigits.
  by repeat (apply andb_true_iff in Hdigits as [? Hdigits]).
Qed.

Lemma pretty_N_char_1 (x : N) :
  (x < 10)%N -> Ascii.eqb (pretty_N_char x) "1" = true <-> x = 1%N.
Proof.
  intros Hx. rewrite Ascii.eqb_eq. split; [|by intros ->].
  intros E. by apply (pretty_N_char_inj x 1).
Qed.

Lemma append_cons c s t : String c s +:+ t = String c (s +:+ t).
Proof. reflexivity. Qed.

Lemma append_nil t : "" +:+ t = t.
Proof. reflexivity. Qed.

(** The gate matches exactly the major versions 10 to 19. *)
Lemma node_v1x_major (major : N) (rest : string) :
  node_v1x (version_string major rest) = true <-> (10 <= major <= 19)%N.
Proof.
  unfold version_string.
  destruct (decide (major < 10)%N) as [H1|H1];
    [|destruct (decide (major < 100)%N) as [H2|H2]].
  - rewrite pretty_one_digit by done.
    rewrite !append_cons, ?append_nil; cbn [node_v1x].
    assert (is_digit "." = false) as Hdot by reflexivity.
    destruct rest; [split; [done|lia]|].
    rewrite Hdot, andb_false_r. cbn [andb]. split; [done|lia].
  - rewrite pretty_two_digits by lia.
    rewrite !append_cons, ?append_nil; cbn [node_v1x]. 
    assert (major / 10 < 10)%N by (apply N.Div0.div_lt_upper_bound; lia).
    rewrite is_digit_pretty_N_char.
    change (Ascii.eqb "v" "v") with true. change (Ascii.eqb "." ".") with true.
    cbn [andb]. rewrite !andb_true_r.
    rewrite pretty_N_char_1 by done. split.
    + intros Hq. pose proof (N.div_mod major 10). pose proof (N.mod_lt major 10).
      lia.
    + intros Hm. symmetry. apply (N.div_unique major 10 1 (major - 10)); lia.
  - destruct (pretty_three_digits major) as (a & b & c & t & -> & Hc); [lia|].
    rewrite !append_cons, ?append_nil; cbn [node_v1x]. split; [|lia].
    intros Hgate. repeat (apply andb_true_iff in Hgate as [Hgate ?]).
    assert (c = "."%char) as -> by (by apply Ascii.eqb_eq).
    done.
Qed.

Lemma fs_writeFile_trace (p : path) (d : bytes) (fs : FS) :
  trace (fs_writeFile p d fs) = [EvWriteFile p d].
Proof.
  unfold fs_writeFile. destruct p; [done|].
  destruct (fs !! _) as [[]|]; try done; by destruct (is_dir _ _).
Qed.

Section Gate.

Context {H : StreamHash}.
Variable host : Host.
Variable process : Process.

(** When the gate matches, nothing has happened yet. *)
Lemma createTestSea_gate_closed (fs : FS) :
  node_v1x (version process) = true ->
  createTestSea host process fs
  = Run (Throw (JsError "Node v20 required to create executable.")) fs [].
Proof. intros Hver. unfold createTestSea. by rewrite Hver. Qed.

(** When it does not, the run goes on to the config write. *)
Lemma createTestSea_gate_open (fs : FS) :
  node_v1x (version process) = false ->
  exists rest,
    trace (createTestSea host process fs)
    = EvWriteFile (config_path process) (Buffer_from sea_config) :: rest.
Proof.
  intros Hver. unfold createTestSea. rewrite Hver.
  erewrite bind_run by reflexivity. cbn [trace app].
  match goal with |- context [trace (bind ?m ?k fs)] =>
    destruct (trace_bind_prefix m k fs) as [rest ->] end.
  rewrite fs_writeFile_trace. by exists rest.
Qed.

(** What the gate does at each major version: it raises for 10 to 19, the
    versions that match [^v1\d\.], and throws before anything else happens;
    for every other major version the run goes on to the config write. *)
Lemma createTestSea_gate_major (fs : FS) (major : N) (rest : string) :
  version process = version_string major rest ->
  let r := createTestSea host process fs in
  let raised :=
    r = Run (Throw (JsError "Node v20 required to create executable.")) fs [] in
  let passed :=
    exists rest',
      trace r = EvWriteFile (config_path process) (Buffer_from sea_config) :: rest' in
  ((10 <= major <= 19)%N -> raised) /\
  (~ (10 <= major <= 19)%N -> passed) /\
  (raised <-> (10 <= major <= 19)%N).
Proof.
  intros Hv r raised passed.
  pose proof (node_v1x_major major rest) as Hgate. rewrite <- Hv in Hgate.
  assert (Hclosed : (10 <= major <= 19)%N -> raised)
    by (intros Hm; apply createTestSea_gate_closed, Hgate, Hm).
  assert (Hopen : ~ (10 <= major <= 19)%N -> passed).
  { intros Hm. apply createTestSea_gate_open.
    destruct (node_v1x (version process)); [|done]. destruct Hm. by apply Hgate. }
  split; [done|]. split; [done|]. split; [|done].
  intros Hraised. destruct (decide (10 <= major <= 19)%N) as [|Hm]; [done|].
  destruct (Hopen Hm) as [rest' Htrace]. unfold raised in Hraised.
  by rewrite Hraised in Htrace.
Qed.

(** C4: the gate enforces the minimum major version of 20 on every runtime
    the script can run on. Such a runtime has a major version of 10 or more:
    the [node:] imports in the first lines of [cli.js] do not load on
    anything older. There the assemble step raises, before anything else
    happens, for every major version below 20, and for every major version
    at or above 20 it does not raise: the run goes on to the config
    write. *)
Theorem version_gate_minimum (fs : FS) (major : N) (rest : string) :
  version process = version_string major rest ->
  (10 <= major)%N ->
  let r := createTestSea host process fs in
  let raised :=
    r = Run (Throw (JsError "Node v20 required to create executable.")) fs [] in
  let passed :=
    exists rest',
      trace r = EvWriteFile (config_path process) (Buffer_from sea_config) :: rest' in
  ((major < 20)%N -> raised) /\
  ((20 <= major)%N -> passed) /\
  (raised <-> (major < 20)%N).
Proof.
  intros Hv Hmin r raised passed.
  destruct (createTestSea_gate_major fs major rest Hv) as (Hclosed & Hopen & Hiff).
  split; [intros; apply Hclosed; lia|].
  split; [intros; apply Hopen; lia|].
  fold r raised in Hiff. rewrite Hiff. lia.
Qed.

End Gate.

(** Node 18 is turned away, Node 20 is let through. *)
Lemma version_gate_minimum_witness :
  createTestSea Demo.host Demo.node18 Demo.built
  = Run (Throw (JsError "Node v20 required to create executable.")) Demo.built []
  /\ exists rest',
       trace (createTestSea Demo.host Demo.process Demo.built)
       = EvWriteFile (config_path Demo.process) (Buffer_from sea_config) :: rest'.
Proof.
  pose proof (version_gate_minimum (H:=md5) Demo.host Demo.node18 Demo.built
                18 "1.0") as W18.
  pose proof (version_gate_minimum (H:=md5) Demo.host Demo.process Demo.built
                20 "11.0") as W20.
  cbv zeta in W18, W20.
  destruct W18 as (Hraised & _); [vm_compute; reflexivity | lia |].
  destruct W20 as (_ & Hpassed & _); [vm_compute; reflexivity | lia |].
  split; [apply Hraised; lia | apply Hpassed; lia].
Defined.

(** ** The orchestrator *)

Section Orchestrator.

Context {H : StreamHash}.
Variable host : Host.
Variable process : Process.

(** The stages of [main] on a win32 host, written out. *)
Lemma main_run (fs : FS) :
  String.eqb (platform process) "win32" = true ->
  main host process fs
  = let r1 := prepareScript process fs in
    match res r1 with
    | Ok _ =>
      let r2 := createTestSea host process (disk r1) in
      match res r2 with
      | Ok updatedSea =>
        let r3 := (if updatedSea then registerAppx host process else ret tt)
                    (disk r2) in
        match res r3 with
        | Ok _ =>
          let r4 := runExe host process (disk r3) in
          Run (res r4) (disk r4) (trace r1 ++ trace r2 ++ trace r3 ++ trace r4)
        | Throw e =>
          Run (Throw e) (disk r3)
              (trace r1 ++ trace r2 ++ trace r3 ++
               [EvConsole "error" "Error registering AppX package."])
        | Crash e => Run (Crash e) (disk r3) (trace r1 ++ trace r2 ++ trace r3)
        end
      | Throw e =>
        Run (Throw e) (disk r2)
            (trace r1 ++ trace r2 ++
             [EvConsole "error" "Error creating node executable."])
      | Crash e => Run (Crash e) (disk r2) (trace r1 ++ trace r2)
      end
    | Throw e =>
      Run (Throw e) (disk r1)
          (trace r1 ++ [EvConsole "error" "Error compiling msix-node script."])
    | Crash e => Run (Crash e) (disk r1) (trace r1)
    end.
Proof.
  intros Hwin. unfold main. rewrite Hwin. cbn [negb]. cbv zeta.
  rewrite bind_unfold.
  rewrite rethrow_res, rethrow_disk, rethrow_trace.
  destruct (res (prepareScript process fs)) as [[]|e|e]; [|by rewrite ?app_nil_r..].
  rewrite bind_unfold.
  rewrite rethrow_res, rethrow_disk, rethrow_trace.
  destruct (res (createTestSea host process _)) as [updatedSea|e|e];
    cbn [res disk trace]; [|by rewrite ?app_nil_r, <- ?(assoc_L (++))..].
  rewrite app_nil_r, bind_unfold.
  destruct updatedSea.
  - rewrite rethrow_res, rethrow_disk, rethrow_trace.
    destruct (res (registerAppx host process _)) as [[]|e|e];
      cbn [res disk trace]; by rewrite ?app_nil_r, <- ?(assoc_L (++)).
  - cbn [ret res disk trace]. by rewrite ?app_nil_r, <- ?(assoc_L (++)).
Qed.

Lemma main_not_win32 (fs : FS) :
  String.eqb (platform process) "win32" = false ->
  main host process fs
  = Run (Throw (JsError "msix-node only supported on Windows.")) fs [].
Proof. intros Hwin. unfold main. by rewrite Hwin. Qed.

(** What each stage emits. *)
Lemma prepareScript_emits (P : event -> Prop) :
  P (EvMkdir (outDir process)) ->
  (forall d, P (EvWriteFile (script_path process) d)) ->
  emits_only P (prepareScript process).
Proof. intros Hmk Hwr. unfold prepareScript. emits; [exact Hmk | apply Hwr]. Qed.

Lemma createTestSea_emits (P : event -> Prop) :
  (forall d, P (EvWriteFile (config_path process) d)) ->
  P (EvExec sea_command None (outDir process)) ->
  P (EvCp (execPath process) (exe_path process)) ->
  P (EvExec postject_command None (outDir process)) ->
  (forall level msg, P (EvConsole level msg)) ->
  emits_only P (createTestSea host process).
Proof.
  intros Hcfg Hsea Hcp Hpatch Hlog. unfold createTestSea.
  emits; first [apply Hcfg | exact Hsea | exact Hcp | exact Hpatch | apply Hlog].
Qed.



(** How often each stage calls the registrar and the launcher. *)
Lemma prepareScript_calls (kind : event -> bool) (fs : FS) :
  kind = is_register \/ kind = is_launch ->
  calls kind (trace (prepareScript process fs)) = 0.
Proof.
  intros Hk. apply calls_none. revert fs.
  apply prepareScript_emits; by destruct Hk as [-> | ->].
Qed.

Lemma createTestSea_calls (kind : event -> bool) (fs : FS) :
  kind = is_register \/ kind = is_launch ->
  calls kind (trace (createTestSea host process fs)) = 0.
Proof.
  intros Hk. apply calls_none. revert fs.
  apply createTestSea_emits; by destruct Hk as [-> | ->].
Qed.

Lemma registerAppx_calls (fs : FS) :
  calls is_register (trace (registerAppx host process fs)) = 1 /\
  calls is_launch (trace (registerAppx host process fs)) = 0.
Proof.
  unfold registerAppx, bind, console, emit, exec.
  destruct (run_command _ _ _ _ _) as [[] fs']; by split.
Qed.

Lemma runExe_calls (fs : FS) :
  calls is_register (trace (runExe host process fs)) = 0 /\
  calls is_launch (trace (runExe host process fs)) = 1.
Proof.
  unfold runExe, bind, console, emit, spawn. cbv zeta.
  destruct (run_child _ _ _ _ _) as [code|[[|c]|sig] out err fs']; by split.
Qed.

(** C5: in a run of [main] the registrar is called once when the assemble
    step returned [true], and not at all otherwise; when the assemble step
    returned [false] the registrar is not called and the launcher still
    is. *)
Theorem registrar_iff_rebuilt (fs : FS) :
  let t := trace (main host process fs) in
  let assembled := assemble_outcome host process fs in
  (calls is_register t = 1 <-> assembled = Some (Ok true)) /\
  (assembled <> Some (Ok true) -> calls is_register t = 0) /\
  (assembled = Some (Ok false) ->
   calls is_register t = 0 /\ calls is_launch t = 1).
Proof.
  cbv zeta. unfold assemble_outcome.
  destruct (String.eqb (platform process) "win32") eqn:Hwin;
    [|rewrite main_not_win32 by done; by repeat split].
  rewrite main_run by done. cbv zeta.
  pose proof (prepareScript_calls is_register fs (or_introl eq_refl)) as Hp1.
  pose proof (prepareScript_calls is_launch fs (or_intror eq_refl)) as Hp2.
  destruct (res (prepareScript process fs)) as [[]|e|e];
    [|cbn [trace]; rewrite ?calls_app, ?Hp1; by repeat split..].
  set (fs1 := disk (prepareScript process fs)).
  pose proof (createTestSea_calls is_register fs1 (or_introl eq_refl)) as Hc1.
  pose proof (createTestSea_calls is_launch fs1 (or_intror eq_refl)) as Hc2.
  destruct (res (createTestSea host process fs1)) as [[|]|e|e];
    [| |cbn [trace]; rewrite ?calls_app, ?Hp1, ?Hc1; by repeat split..].
  - set (fs2 := disk (createTestSea host process fs1)).
    destruct (registerAppx_calls fs2) as [Hr1 Hr2].
    destruct (runExe_calls (disk (registerAppx host process fs2)))
      as [Hx1 Hx2].
    destruct (res (registerAppx host process fs2)) as [[]|e|e];
      cbn [trace]; rewrite ?calls_app, ?Hp1, ?Hc1, ?Hr1, ?Hx1; by repeat split.
  - set (fs2 := disk (createTestSea host process fs1)).
    destruct (runExe_calls fs2) as [Hx1 Hx2].
    cbn [ret res disk trace]. rewrite !calls_app, Hp1, Hp2, Hc1, Hc2, Hx1, Hx2.
    by repeat split.
Qed.

(** C6: when the assemble step fails in a run of [main], by an error
    thrown or by the end of the process, the run ends with that failure, and
    neither the registrar nor the launcher has been called. *)
Theorem main_fail_fast (fs : FS) (e : js_error) :
  let r := main host process fs in
  let assembled := assemble_outcome host process fs in
  (assembled = Some (Throw e) ->
   res r = Throw e /\
   calls is_register (trace r) = 0 /\ calls is_launch (trace r) = 0) /\
  (assembled = Some (Crash e) ->
   res r = Crash e /\
   calls is_register (trace r) = 0 /\ calls is_launch (trace r) = 0).
Proof.
  cbv zeta. unfold assemble_outcome.
  destruct (String.eqb (platform process) "win32") eqn:Hwin; [|by split].
  rewrite main_run by done. cbv zeta.
  pose proof (prepareScript_calls is_register fs (or_introl eq_refl)) as Hp1.
  pose proof (prepareScript_calls is_launch fs (or_intror eq_refl)) as Hp2.
  destruct (res (prepareScript process fs)) as [[]|e'|e']; [|by split..].
  set (fs1 := disk (prepareScript process fs)).
  pose proof (createTestSea_calls is_register fs1 (or_introl eq_refl)) as Hc1.
  pose proof (createTestSea_calls is_launch fs1 (or_intror eq_refl)) as Hc2.
  destruct (res (createTestSea host process fs1)) as [b|e'|e'];
    (split; intros [= <-]); cbn [res trace];
    rewrite ?calls_app, ?Hp1, ?Hp2, ?Hc1, ?Hc2; by repeat split.
Qed.

(** C3, as the code has it: the platform is checked before anything else,
    and on another platform [main] throws with the disk untouched and no
    event. The version is checked at the start of the assemble step, where
    it throws before the config is written; in [main] that is after the
    stager, whose directory and staged script are then on disk. *)
Theorem preconditions_checked (fs : FS) :
  (String.eqb (platform process) "win32" = false ->
   main host process fs
   = Run (Throw (JsError "msix-node only supported on Windows.")) fs []) /\
  (node_v1x (version process) = true ->
   createTestSea host process fs
   = Run (Throw (JsError "Node v20 required to create executable.")) fs []) /\
  (String.eqb (platform process) "win32" = true ->
   node_v1x (version process) = true ->
   res (prepareScript process fs) = Ok tt ->
   main host process fs
   = Run (Throw (JsError "Node v20 required to create executable."))
         (disk (prepareScript process fs))
         (trace (prepareScript process fs) ++
          [EvConsole "error" "Error creating node executable."])).
Proof.
  split; [apply main_not_win32|]. split; [apply createTestSea_gate_closed|].
  intros Hwin Hver Hstaged. rewrite main_run by done. cbv zeta.
  rewrite Hstaged. by rewrite createTestSea_gate_closed.
Qed.

(** C8: once the child has ended, [runExe] resolves when the exit code is
    0 and otherwise rejects with a reason that holds the exit code, [null]
    for a child a signal ended; the reason tells the exit codes apart. *)
Theorem runExe_exit_code (fs fs' : FS) (st : exit_status) (out err : bytes) :
  run_child host exeName (tail (argv process)) (cwd process) fs
    = ChildRan st out err fs' ->
  res (runExe host process fs)
  = match exitCode_of st with
    | Some 0%N => Ok tt
    | _ => Throw (Rejected ("msix-node exited with exitCode=" +:+ exit_code_text st))
    end /\
  (forall st', exit_code_text st' = exit_code_text st ->
               exitCode_of st' = exitCode_of st).
Proof.
  intros Hchild. split.
  - unfold runExe. erewrite bind_run by reflexivity. cbv zeta.
    erewrite bind_run by (unfold spawn; rewrite Hchild; reflexivity).
    by destruct st as [[|c]|sig].
  - intros st' Htext.
    assert (Hnull : forall c : N, pretty c <> "null").
    { intros c Hc. pose proof (pretty_N_digits c) as Hd. by rewrite Hc in Hd. }
    destruct st as [c|sig], st' as [c'|sig']; simpl in *; try done.
    + by apply (inj pretty) in Htext as ->.
    + by destruct (Hnull c).
    + by destruct (Hnull c').
Qed.

End Orchestrator.


(** A run under Node 18 on a fresh disk. *)
Lemma preconditions_checked_witness :
  main Demo.host Demo.node18 Demo.fresh
  = Run (Throw (JsError "Node v20 required to create executable."))
        (disk (prepareScript Demo.node18 Demo.fresh))
        (trace (prepareScript Demo.node18 Demo.fresh) ++
         [EvConsole "error" "Error creating node executable."]).
Proof.
  apply (preconditions_checked (H:=md5) Demo.host Demo.node18 Demo.fresh);
    vm_compute; reflexivity.
Defined.

(** C3 as stated fails: under Node 18 the run ends with the version error,
    and by then the workspace has been made and the staged script
    written. *)
Lemma version_checked_after_staging :
  node_v1x (version Demo.node18) = true /\
  res (main Demo.host Demo.node18 Demo.fresh)
    = Throw (JsError "Node v20 required to create executable.") /\
  Demo.fresh !! outDir Demo.node18 = None /\
  disk (main Demo.host Demo.node18 Demo.fresh) !! outDir Demo.node18 = Some Dir /\
  Demo.fresh !! script_path Demo.node18 = None /\
  disk (main Demo.host Demo.node18 Demo.fresh) !! script_path Demo.node18 <> None /\
  calls is_side_effect (trace (main Demo.host Demo.node18 Demo.fresh)) = 2.
Proof. repeat split; vm_compute; done. Qed.

(** A child that exits with code 3. *)
Lemma runExe_exit_code_witness :
  res (runExe (Demo.host_exiting (Exited 3)) Demo.process Demo.built)
  = Throw (Rejected "msix-node exited with exitCode=3").
Proof.
  pose proof (runExe_exit_code (Demo.host_exiting (Exited 3)) Demo.process
                Demo.built Demo.built (Exited 3) (Buffer_from "hello") []) as W.
  destruct W as [Hres _]; [reflexivity|]. exact Hres.
Defined.

(** A first run and a second run over an unchanged script. *)
Lemma registrar_iff_rebuilt_witness :
  calls is_register (trace (main Demo.host Demo.process Demo.fresh)) = 1 /\
  calls is_register (trace (main Demo.host Demo.process Demo.built)) = 0 /\
  calls is_launch (trace (main Demo.host Demo.process Demo.built)) = 1.
Proof.
  pose proof (registrar_iff_rebuilt (H:=md5) Demo.host Demo.process Demo.fresh)
    as (Hfirst & _ & _).
  pose proof (registrar_iff_rebuilt (H:=md5) Demo.host Demo.process Demo.built)
    as (_ & _ & Hsecond).
  split.
  - apply Hfirst. vm_compute. reflexivity.
  - apply Hsecond. vm_compute. reflexivity.
Defined.

(** A run whose build tool fails. *)
Lemma main_fail_fast_witness :
  res (main Demo.broken_host Demo.process Demo.built)
    = Throw (ExecError sea_command) /\
  calls is_register (trace (main Demo.broken_host Demo.process Demo.built)) = 0 /\
  calls is_launch (trace (main Demo.broken_host Demo.process Demo.built)) = 0.
Proof.
  pose proof (main_fail_fast (H:=md5) Demo.broken_host Demo.process Demo.built
                (ExecError sea_command)) as (Hthrow & _).
  apply Hthrow. vm_compute. reflexivity.
Defined.

(** * Further properties *)

(** ** The stager *)

Lemma Buffer_from_app (a b : string) :
  Buffer_from (a +:+ b) = Buffer_from a ++ Buffer_from b.
Proof.
  unfold Buffer_from, list_byte_of_string. induction a as [|c a IH]; [done|].
  rewrite append_cons. cbn [list_ascii_of_string List.map app]. by rewrite IH.
Qed.

Lemma Buffer_from_decoded (c : bytes) : Buffer_from (string_of_list_byte c) = c.
Proof. apply list_byte_of_string_of_list_byte. Qed.

Lemma fs_readFile_disk (p : path) (fs : FS) : disk (fs_readFile p fs) = fs.
Proof. unfold fs_readFile. by destruct (fs !! p) as [[]|]. Qed.

Section Stager.

Variable process : Process.

Lemma source_not_outDir : source_path process <> outDir process.
Proof. intros E. by apply path_join_inj in E. Qed.

Lemma source_not_script : source_path process <> script_path process.
Proof.
  intros E. apply (f_equal length) in E.
  unfold source_path, script_path, outDir, path_join in E.
  rewrite !length_app in E. simpl in E. lia.
Qed.

Lemma script_not_outDir : script_path process <> outDir process.
Proof.
  intros E. apply (f_equal length) in E.
  unfold script_path, path_join in E. rewrite length_app in E. simpl in E. lia.
Qed.

(** The first [try] block of [prepareScript]: the workspace is made when
    nothing is at its place. *)
Lemma ensure_workspace_run (fs : FS) :
  try_catch (_ <- fs_stat (outDir process) ;; ret tt)
            (fun _ => fs_mkdir (outDir process)) fs
  = match fs !! outDir process with
    | Some _ => Run (Ok tt) fs []
    | None =>
      if is_dir fs (dirname process)
      then Run (Ok tt) (<[outDir process := Dir]> fs) [EvMkdir (outDir process)]
      else Run (Throw (SysError (dir_error fs (dirname process)) (outDir process)))
               fs [EvMkdir (outDir process)]
    end.
Proof.
  unfold try_catch, bind, fs_stat, fs_mkdir.
  pose proof (parent_path_join (dirname process) "build-tmp-msix") as Hpar.
  fold (outDir process) in Hpar. rewrite Hpar.
  destruct (path_join_cons (dirname process) "build-tmp-msix") as (c & p & E).
  fold (outDir process) in E. rewrite E.
  destruct (fs !! (c :: p)) as [n|] eqn:Hlook; cbn [res disk trace]; [done|].
  rewrite Hlook. by destruct (is_dir fs (dirname process)).
Qed.

Lemma workspace_ready_dir (fs : FS) :
  workspace_ready process fs = true ->
  with_workspace process fs !! outDir process = Some Dir.
Proof.
  unfold workspace_ready, with_workspace.
  destruct (fs !! outDir process) as [[]|] eqn:E; try done.
  intros _. apply lookup_insert_eq.
Qed.

Lemma with_workspace_other (fs : FS) (p : path) :
  p <> outDir process -> with_workspace process fs !! p = fs !! p.
Proof.
  intros Hp. unfold with_workspace.
  destruct (fs !! outDir process); [done|]. by rewrite lookup_insert_ne.
Qed.

(** The whole of a staging that goes well. *)
Lemma prepareScript_ok_run (fs : FS) (c : bytes) :
  workspace_ready process fs = true ->
  fs !! source_path process = Some (File c) ->
  fs !! script_path process <> Some Dir ->
  prepareScript process fs
  = Run (Ok tt)
        (<[script_path process := File (Buffer_from (preload process) ++ c)]>
           (with_workspace process fs))
        ((match fs !! outDir process with
          | Some _ => []
          | None => [EvMkdir (outDir process)]
          end) ++
         [EvWriteFile (script_path process) (Buffer_from (preload process) ++ c)]).
Proof.
  intros Hready Hsrc Hscript. unfold prepareScript.
  pose proof (workspace_ready_dir fs Hready) as Hdir.
  assert (Hstep : try_catch (_ <- fs_stat (outDir process) ;; ret tt)
            (fun _ => fs_mkdir (outDir process)) fs
          = Run (Ok tt) (with_workspace process fs)
                (match fs !! outDir process with
                 | Some _ => []
                 | None => [EvMkdir (outDir process)]
                 end)).
  { rewrite ensure_workspace_run. unfold workspace_ready, with_workspace in *.
    destruct (fs !! outDir process) as [[]|]; try done. by rewrite Hready. }
  erewrite bind_run by exact Hstep.
  assert (Hread : fs_readFile (path_join (dirname process) "msix-node.js")
                    (with_workspace process fs)
                  = Run (Ok (string_of_list_byte c)) (with_workspace process fs) []).
  { unfold fs_readFile. fold (source_path process).
    rewrite with_workspace_other by apply source_not_outDir. by rewrite Hsrc. }
  erewrite bind_run by exact Hread. cbv zeta.
  fold (preload process).
  rewrite Buffer_from_app, Buffer_from_decoded.
  fold (script_path process).
  rewrite (fs_writeFile_run (outDir process) scriptName).
  - done.
  - unfold is_dir. destruct (path_join_cons (dirname process) "build-tmp-msix")
      as (x & p & E). fold (outDir process) in E. rewrite E in *. by rewrite Hdir.
  - fold (script_path process).
    rewrite with_workspace_other by apply script_not_outDir. done.
Qed.

(** When the workspace cannot be had, staging fails. *)
Lemma prepareScript_not_ready (fs : FS) :
  workspace_ready process fs = false ->
  res (prepareScript process fs) <> Ok tt.
Proof.
  intros Hready. unfold prepareScript.
  rewrite bind_unfold, ensure_workspace_run.
  unfold workspace_ready in Hready.
  destruct (fs !! outDir process) as [[c|]|] eqn:Hout; try done.
  - cbn [res disk trace]. rewrite bind_unfold.
    destruct (res (fs_readFile _ fs)) as [script|e|e]; try done.
    cbv zeta. cbn [res]. unfold fs_writeFile.
    rewrite parent_path_join.
    destruct (path_join_cons (outDir process) scriptName) as (x & p & E).
    rewrite E.
    rewrite fs_readFile_disk.
    assert (is_dir fs (outDir process) = false) as ->.
    { unfold is_dir.
      destruct (path_join_cons (dirname process) "build-tmp-msix") as (y & q & E').
      fold (outDir process) in E'. rewrite E' in *. by rewrite Hout. }
    by destruct (fs !! (x :: p)) as [[]|].
  - by rewrite Hready.
Qed.

Lemma prepareScript_no_source (fs : FS) :
  (forall c, fs !! source_path process <> Some (File c)) ->
  res (prepareScript process fs) <> Ok tt.
Proof.
  intros Hsrc. unfold prepareScript.
  rewrite bind_unfold, ensure_workspace_run.
  assert (Hread : forall fs1, fs1 !! source_path process = fs !! source_path process ->
            forall k : string -> M unit,
            res (bind (fs_readFile (source_path process)) k fs1) <> Ok tt).
  { intros fs1 E k. rewrite bind_unfold. unfold fs_readFile. rewrite E.
    destruct (fs !! source_path process) as [[c|]|] eqn:Hs; try done.
    by destruct (Hsrc c). }
  destruct (fs !! outDir process) as [n|] eqn:Hout; cbn [res disk trace].
  - by apply Hread.
  - destruct (is_dir fs (dirname process)); cbn [res disk trace]; [|done].
    apply Hread. rewrite lookup_insert_ne; [done|].
    intros E. symmetry in E. by apply source_not_outDir in E.
Qed.

Lemma prepareScript_script_is_dir (fs : FS) :
  fs !! script_path process = Some Dir ->
  res (prepareScript process fs) <> Ok tt.
Proof.
  intros Hscript. unfold prepareScript.
  rewrite bind_unfold, ensure_workspace_run.
  assert (Hwrite : forall fs1 d,
            fs1 !! script_path process = Some Dir ->
            res (fs_writeFile (script_path process) d fs1) <> Ok tt).
  { intros fs1 d E. unfold fs_writeFile.
    destruct (path_join_cons (outDir process) scriptName) as (x & p & E').
    fold (script_path process) in E'. rewrite E' in *. by rewrite E. }
  assert (Hrest : forall fs1, fs1 !! script_path process = Some Dir ->
            res (bind (fs_readFile (source_path process))
                   (fun script =>
                      fs_writeFile (script_path process)
                        (Buffer_from (preload process +:+ script))) fs1) <> Ok tt).
  { intros fs1 E. rewrite bind_unfold.
    destruct (res (fs_readFile (source_path process) fs1)); try done.
    cbn [res]. rewrite fs_readFile_disk. by apply Hwrite. }
  destruct (fs !! outDir process) as [n|] eqn:Hout; cbn [res disk trace].
  - by apply Hrest.
  - destruct (is_dir fs (dirname process)); cbn [res disk trace]; [|done].
    apply Hrest. rewrite lookup_insert_ne; [done|].
    intros E. symmetry in E. by apply script_not_outDir in E.
Qed.

(** X1: staging succeeds exactly when the workspace is a directory or can
    be made (nothing at its place, and the directory of the tool is
    there), the source script is a file, and no directory is in the place
    of the staged script. *)
Theorem prepareScript_succeeds_iff (fs : FS) :
  res (prepareScript process fs) = Ok tt
  <-> workspace_ready process fs = true
      /\ (exists c, fs !! source_path process = Some (File c))
      /\ fs !! script_path process <> Some Dir.
Proof.
  split.
  - intros Hres. split; [|split].
    + destruct (workspace_ready process fs) eqn:Hready; [done|].
      by destruct (prepareScript_not_ready fs Hready).
    + destruct (fs !! source_path process) as [[c|]|] eqn:Hsrc; [by eauto|..];
        destruct (prepareScript_no_source fs); by rewrite ?Hsrc.
    + intros Hdir. by destruct (prepareScript_script_is_dir fs Hdir).
  - intros (Hready & [c Hsrc] & Hscript).
    by rewrite (prepareScript_ok_run fs c Hready Hsrc Hscript).
Qed.

(** X2: when staging succeeds, the staged script is the preload followed
    by the bytes of the source script, the workspace is a directory, and
    nothing else on the disk has changed; in particular the source script
    is as it was. (For a source that is UTF-8 text, which [readFile] hands
    over as it is.) *)
Theorem prepareScript_staged (fs : FS) (c : bytes) :
  res (prepareScript process fs) = Ok tt ->
  fs !! source_path process = Some (File c) ->
  utf8_valid c = true ->
  let after := disk (prepareScript process fs) in
  after !! script_path process
    = Some (File (Buffer_from (preload process) ++ c)) /\
  after !! outDir process = Some Dir /\
  (forall p, p <> outDir process -> p <> script_path process ->
             after !! p = fs !! p).
Proof.
  intros Hres Hsrc _ after.
  apply prepareScript_succeeds_iff in Hres as (Hready & _ & Hscript).
  unfold after. rewrite (prepareScript_ok_run fs c Hready Hsrc Hscript).
  cbn [disk]. split; [apply lookup_insert_eq|]. split.
  - rewrite lookup_insert_ne by (intros E; by apply script_not_outDir in E).
    by apply workspace_ready_dir.
  - intros p Hp1 Hp2. rewrite lookup_insert_ne by done.
    by apply with_workspace_other.
Qed.

(** X3: staging again over an unchanged source changes nothing: the second
    run finds the workspace, makes no directory, and writes the same
    staged script over the first. *)
Theorem prepareScript_idempotent (fs : FS) :
  res (prepareScript process fs) = Ok tt ->
  let once := prepareScript process fs in
  exists staged,
    prepareScript process (disk once)
    = Run (Ok tt) (disk once) [EvWriteFile (script_path process) staged]
    /\ disk once !! script_path process = Some (File staged).
Proof.
  intros Hres once.
  apply prepareScript_succeeds_iff in Hres as (Hready & [c Hsrc] & Hscript).
  pose proof (prepareScript_ok_run fs c Hready Hsrc Hscript) as Hrun.
  exists (Buffer_from (preload process) ++ c).
  unfold once. rewrite Hrun. cbn [disk].
  set (fs1 := <[script_path process := _]> (with_workspace process fs)).
  assert (Hout : fs1 !! outDir process = Some Dir).
  { unfold fs1.
    rewrite lookup_insert_ne by (intros E; by apply script_not_outDir in E).
    by apply workspace_ready_dir. }
  split; [|apply lookup_insert_eq].
  rewrite (prepareScript_ok_run fs1 c).
  - unfold with_workspace. rewrite Hout. unfold fs1.
    by rewrite insert_insert_eq.
  - unfold workspace_ready. by rewrite Hout.
  - unfold fs1. rewrite lookup_insert_ne by (intros E; by apply source_not_script).
    rewrite with_workspace_other by apply source_not_outDir. done.
  - unfold fs1. by rewrite lookup_insert_eq.
Qed.

(** X4: when the source script is not a file, staging throws the error of
    [readFile]; by then the workspace has been seen to, so a directory made
    for it stays behind, and nothing is written into it. *)
Theorem prepareScript_missing_source (fs : FS) :
  workspace_ready process fs = true ->
  (forall c, fs !! source_path process <> Some (File c)) ->
  exists code,
    prepareScript process fs
    = Run (Throw (SysError code (source_path process)))
          (with_workspace process fs)
          (match fs !! outDir process with
           | Some _ => []
           | None => [EvMkdir (outDir process)]
           end).
Proof.
  intros Hready Hsrc. unfold prepareScript.
  assert (Hstep : try_catch (_ <- fs_stat (outDir process) ;; ret tt)
            (fun _ => fs_mkdir (outDir process)) fs
          = Run (Ok tt) (with_workspace process fs)
                (match fs !! outDir process with
                 | Some _ => []
                 | None => [EvMkdir (outDir process)]
                 end)).
  { rewrite ensure_workspace_run. unfold workspace_ready, with_workspace in *.
    destruct (fs !! outDir process) as [[]|]; try done. by rewrite Hready. }
  erewrite bind_run by exact Hstep.
  rewrite bind_unfold. unfold fs_readFile. fold (source_path process).
  rewrite with_workspace_other by apply source_not_outDir.
  destruct (fs !! source_path process) as [[c|]|] eqn:Hs.
  - by destruct (Hsrc c).
  - eexists. cbn [res disk trace]. by rewrite app_nil_r.
  - eexists. cbn [res disk trace]. by rewrite app_nil_r.
Qed.

End Stager.

(** A fresh disk with the tool installed can be staged. *)
Lemma prepareScript_succeeds_iff_witness :
  workspace_ready Demo.process Demo.fresh = true
  /\ (exists c, Demo.fresh !! source_path Demo.process = Some (File c))
  /\ Demo.fresh !! script_path Demo.process <> Some Dir.
Proof.
  apply (prepareScript_succeeds_iff Demo.process Demo.fresh).
  vm_compute. reflexivity.
Defined.

(** The first staging on a fresh disk. *)
Lemma prepareScript_staged_witness :
  disk (prepareScript Demo.process Demo.fresh) !! script_path Demo.process
  = Some (File (Buffer_from (preload Demo.process) ++ Buffer_from "main();")).
Proof.
  apply (prepareScript_staged Demo.process Demo.fresh (Buffer_from "main();"));
    vm_compute; reflexivity.
Defined.

Lemma prepareScript_idempotent_witness :
  exists staged,
    prepareScript Demo.process Scenario.staged
    = Run (Ok tt) Scenario.staged [EvWriteFile (script_path Demo.process) staged]
    /\ Scenario.staged !! script_path Demo.process = Some (File staged).
Proof.
  apply (prepareScript_idempotent Demo.process Demo.fresh).
  vm_compute. reflexivity.
Defined.

(** The tool installed without its script: the workspace is made, then
    the read fails. *)
Lemma prepareScript_missing_source_witness :
  exists code,
    prepareScript Demo.process Scenario.no_source
    = Run (Throw (SysError code (source_path Demo.process)))
          (with_workspace Demo.process Scenario.no_source)
          [EvMkdir (outDir Demo.process)].
Proof.
  apply (prepareScript_missing_source Demo.process Scenario.no_source).
  - vm_compute. reflexivity.
  - intros c. vm_compute. discriminate.
Defined.

(** ** The assemble step, further *)

Lemma exec_trace (host : Host) (cmd : string) (shell : option string)
    (dir : path) (fs : FS) :
  trace (exec host cmd shell dir fs) = [EvExec cmd shell dir].
Proof. unfold exec. by destruct (run_command _ _ _ _ _). Qed.

(** A whole run from its three parts. *)
Lemma run_eq {A} (r : run A) (o : outcome A) (d : FS) (t : list event) :
  res r = o -> disk r = d -> trace r = t -> r = Run o d t.
Proof. destruct r. simpl. by intros -> -> ->. Qed.

(** The directories made above a path lie above it: longer paths are left
    alone. *)
Lemma mkdirp_from_longer (todo : path) : forall (done : path) (fs fs' : FS) (q : path),
  mkdirp_from done todo fs = Some fs' ->
  length (done ++ todo) < length q ->
  fs' !! q = fs !! q.
Proof.
  induction todo as [|c todo IH]; intros done fs fs' q Hmk Hlen; simpl in Hmk.
  - by injection Hmk as <-.
  - assert (Hlen' : length ((done ++ [c]) ++ todo) < length q)
      by (rewrite <- (assoc_L (++)); exact Hlen).
    destruct (fs !! (done ++ [c])) as [[]|] eqn:E; [done|..].
    + by apply (IH _ _ _ _ Hmk).
    + rewrite (IH _ _ _ _ Hmk Hlen'). apply lookup_insert_ne.
      intros E'. rewrite <- E', !length_app in Hlen. simpl in Hlen. lia.
Qed.

(** A copy that succeeds puts the bytes of the source at the destination
    and leaves every path that is not above the destination as it was. *)
Lemma fs_cp_ok (src dst : path) (fs : FS) :
  res (fs_cp src dst fs) = Ok tt ->
  exists c,
    fs !! src = Some (File c) /\
    trace (fs_cp src dst fs) = [EvCp src dst] /\
    disk (fs_cp src dst fs) !! dst = Some (File c) /\
    (forall q, length dst <= length q -> q <> dst ->
               disk (fs_cp src dst fs) !! q = fs !! q).
Proof.
  unfold fs_cp. destruct (fs !! src) as [[c|]|] eqn:Hsrc; [|done..].
  destruct (decide (src = dst)); [done|].
  destruct (is_dir fs dst); [done|].
  destruct (mkdirp (parent dst) fs) as [fs'|] eqn:Hmk; [|done].
  intros _. exists c. cbn [disk trace].
  split; [done|]. split; [done|]. split; [apply lookup_insert_eq|].
  intros q Hlen Hq. rewrite lookup_insert_ne by done.
  apply (mkdirp_from_longer _ _ _ _ _ Hmk). simpl.
  destruct dst as [|x dst _] using rev_ind;
    [destruct q; [congruence | simpl; lia]|].
  unfold parent. rewrite removelast_last.
  rewrite length_app in Hlen. simpl in Hlen. lia.
Qed.

Section Assemble_more.

Context {H : StreamHash} {L : LawfulHash H}.
Variable host : Host.
Variable process : Process.

(** X5: the assemble step counts on the workspace: when the workspace is
    not a directory (the stager has not run), it throws the error of the
    config write, starts no subprocess and leaves the disk as it is. *)
Theorem createTestSea_needs_workspace (fs : FS) :
  node_v1x (version process) = false ->
  is_dir fs (outDir process) = false ->
  exists code,
    createTestSea host process fs
    = Run (Throw (SysError code (config_path process))) fs
          [EvWriteFile (config_path process) (Buffer_from sea_config)].
Proof.
  intros Hver Hdir. unfold createTestSea. rewrite Hver.
  erewrite bind_run by reflexivity.
  rewrite bind_unfold. unfold fs_writeFile.
  rewrite parent_path_join, Hdir.
  destruct (path_join_cons (outDir process) "sea-config.json") as (c & p & E).
  fold (config_path process). fold (config_path process) in E. rewrite E.
  destruct (fs !! (c :: p)) as [[]|]; by eexists.
Qed.

(** The assemble step up to the end of the build tool. *)
Lemma createTestSea_to_build (fs : FS) :
  node_v1x (version process) = false ->
  is_dir fs (outDir process) = true ->
  fs !! config_path process <> Some Dir ->
  createTestSea host process fs
  = let r :=
      (exec host sea_command None (outDir process) ;;
       blobChecksum <- readFileChecksum host (blob_path process) ;;
       if strict_eq (previous_digest process fs) blobChecksum
       then
         console "debug" ("Skipping " +:+ exeName +:+ " rebuild (blob checksums match)") ;;
         ret false
       else embedding host process) (with_config process fs) in
    Run (res r) (disk r)
        (EvWriteFile (config_path process) (Buffer_from sea_config) :: trace r).
Proof.
  intros Hver Hdir Hcfg. unfold createTestSea. rewrite Hver.
  erewrite bind_run by reflexivity.
  erewrite bind_run by (apply fs_writeFile_run; [exact Hdir | exact Hcfg]).
  erewrite bind_run by apply previous_digest_run.
  cbn [res disk trace app].
  change (<[path_join (outDir process) "sea-config.json" :=
            File (Buffer_from sea_config)]> fs) with (with_config process fs).
  by rewrite previous_digest_with_config.
Qed.

(** X6: the build tool runs on every run that gets to it, whatever blob is
    there from before: once the config is written, the next event is the
    build tool, run in the workspace. The skip only saves the embedding. *)
Theorem createTestSea_always_builds (fs : FS) :
  node_v1x (version process) = false ->
  is_dir fs (outDir process) = true ->
  fs !! config_path process <> Some Dir ->
  exists rest,
    trace (createTestSea host process fs)
    = EvWriteFile (config_path process) (Buffer_from sea_config)
      :: EvExec sea_command None (outDir process) :: rest.
Proof.
  intros Hver Hdir Hcfg. rewrite (createTestSea_to_build fs Hver Hdir Hcfg).
  cbv zeta. cbn [trace].
  match goal with |- context [trace (bind ?m ?k ?x)] =>
    destruct (trace_bind_prefix m k x) as [rest ->] end.
  rewrite exec_trace. by exists rest.
Qed.

(** X7: when the build tool exits with 0 and no blob file is there, the
    checksum of the blob ends the process: the assemble step neither
    returns nor throws, and a [catch] around it does not run. *)
Theorem createTestSea_blob_missing (fs fs2 : FS) :
  node_v1x (version process) = false ->
  is_dir fs (outDir process) = true ->
  fs !! config_path process <> Some Dir ->
  run_command host sea_command None (outDir process) (with_config process fs)
    = (true, fs2) ->
  (forall c, fs2 !! blob_path process <> Some (File c)) ->
  (exists code,
     createTestSea host process fs
     = Run (Crash (SysError code (blob_path process))) fs2
           [EvWriteFile (config_path process) (Buffer_from sea_config);
            EvExec sea_command None (outDir process)]) /\
  (forall handler,
     try_catch (createTestSea host process) handler fs
     = createTestSea host process fs).
Proof.
  intros Hver Hdir Hcfg Hbuild Hblob.
  assert (exists code,
     createTestSea host process fs
     = Run (Crash (SysError code (blob_path process))) fs2
           [EvWriteFile (config_path process) (Buffer_from sea_config);
            EvExec sea_command None (outDir process)]) as [code Hrun].
  { rewrite (createTestSea_to_build fs Hver Hdir Hcfg). cbv zeta.
    erewrite bind_run by (apply exec_ok; exact Hbuild).
    rewrite bind_unfold. unfold readFileChecksum.
    destruct (fs2 !! blob_path process) as [[c|]|] eqn:E.
    - by destruct (Hblob c).
    - by eexists.
    - by eexists. }
  split; [by exists code|].
  intros handler. unfold try_catch. by rewrite Hrun.
Qed.

(** X8: when the digests differ and the copy succeeds, the patcher is run
    on a fresh copy of the host binary, whatever executable was in the
    workspace before; the copy changes nothing else in the workspace. The
    assemble step returns [true] when the patcher exits with 0 and throws
    its error otherwise; either way the disk is what the patcher leaves, so
    a failed patch is not undone. *)
Theorem createTestSea_embedding (fs fs2 : FS) (blob : bytes) :
  node_v1x (version process) = false ->
  is_dir fs (outDir process) = true ->
  fs !! config_path process <> Some Dir ->
  run_command host sea_command None (outDir process) (with_config process fs)
    = (true, fs2) ->
  fs2 !! blob_path process = Some (File blob) ->
  previous_digest process fs <> Some (checksum blob) ->
  res (fs_cp (execPath process) (exe_path process) fs2) = Ok tt ->
  let fs3 := disk (fs_cp (execPath process) (exe_path process) fs2) in
  (exists exe,
     fs2 !! execPath process = Some (File exe) /\
     fs3 !! exe_path process = Some (File exe)) /\
  fs3 !! blob_path process = Some (File blob) /\
  createTestSea host process fs
  = (let '(ok, fs4) :=
       run_command host postject_command None (outDir process) fs3 in
     Run (if ok then Ok true else Throw (ExecError postject_command)) fs4
         [EvWriteFile (config_path process) (Buffer_from sea_config);
          EvExec sea_command None (outDir process);
          EvCp (execPath process) (exe_path process);
          EvConsole "info" "Building msixnode.exe…";
          EvExec postject_command None (outDir process)]).
Proof.
  intros Hver Hdir Hcfg Hbuild Hblob Hdiff Hcp fs3.
  destruct (fs_cp_ok _ _ _ Hcp) as (exe & Hsrc & Htrace & Hdst & Hframe).
  split; [by exists exe|]. split.
  - unfold fs3. rewrite Hframe; [done| |].
    + unfold exe_path, blob_path, path_join. rewrite !length_app. simpl. lia.
    + intros E. by apply path_join_inj in E.
  - rewrite (createTestSea_built host process fs fs2 blob Hver Hdir Hcfg Hbuild Hblob).
    cbv zeta.
    destruct (strict_eq (previous_digest process fs) (checksum blob)) eqn:Hcmp.
    { apply strict_eq_true in Hcmp. by destruct Hdiff. }
    assert (Hcprun : fs_cp (execPath process) (path_join (outDir process) exeName) fs2
                     = Run (Ok tt) fs3 [EvCp (execPath process) (exe_path process)])
      by (by apply run_eq).
    unfold embedding.
    erewrite bind_run by exact Hcprun.
    erewrite bind_run by reflexivity.
    rewrite bind_unfold. unfold exec. fold fs3.
    by destruct (run_command host postject_command None (outDir process) fs3)
      as [[] fs4].
Qed.

(** X9: a failed embedding is not made up for. When the patcher fails, the
    fresh blob stays in the workspace; a next run whose build gives a blob
    of the same digest finds the digests equal, returns [false] and does no
    embedding, so the executable stays as the failed patch left it. *)
Theorem createTestSea_failed_patch_not_retried (fs fs2 fs4 fs5 : FS)
    (blob blob' : bytes) :
  node_v1x (version process) = false ->
  is_dir fs (outDir process) = true ->
  fs !! config_path process <> Some Dir ->
  run_command host sea_command None (outDir process) (with_config process fs)
    = (true, fs2) ->
  fs2 !! blob_path process = Some (File blob) ->
  previous_digest process fs <> Some (checksum blob) ->
  res (fs_cp (execPath process) (exe_path process) fs2) = Ok tt ->
  run_command host postject_command None (outDir process)
    (disk (fs_cp (execPath process) (exe_path process) fs2)) = (false, fs4) ->
  is_dir fs4 (outDir process) = true ->
  fs4 !! config_path process <> Some Dir ->
  fs4 !! blob_path process = Some (File blob) ->
  run_command host sea_command None (outDir process) (with_config process fs4)
    = (true, fs5) ->
  fs5 !! blob_path process = Some (File blob') ->
  checksum blob' = checksum blob ->
  let first := createTestSea host process fs in
  res first = Throw (ExecError postject_command) /\
  disk first = fs4 /\
  createTestSea host process (disk first)
  = Run (Ok false) fs5
        [EvWriteFile (config_path process) (Buffer_from sea_config);
         EvExec sea_command None (outDir process);
         EvConsole "debug" "Skipping msixnode.exe rebuild (blob checksums match)"].
Proof.
  intros Hver Hdir Hcfg Hbuild Hblob Hdiff Hcp Hpatch Hdir4 Hcfg4 Hblob4
         Hbuild2 Hblob5 Hsame first.
  pose proof (createTestSea_embedding fs fs2 blob Hver Hdir Hcfg Hbuild Hblob
                Hdiff Hcp) as (_ & _ & Hfirst).
  rewrite Hpatch in Hfirst. unfold first. rewrite Hfirst. cbn [res disk].
  split; [done|]. split; [done|].
  rewrite (createTestSea_built host process fs4 fs5 blob' Hver Hdir4 Hcfg4 Hbuild2 Hblob5).
  cbv zeta.
  replace (strict_eq (previous_digest process fs4) (checksum blob')) with true; [done|].
  symmetry. apply strict_eq_true, previous_digest_Some. eauto.
Qed.

End Assemble_more.

(** The assemble step on a disk where nothing is staged. *)
Lemma createTestSea_needs_workspace_witness :
  exists code,
    createTestSea Demo.host Demo.process Demo.fresh
    = Run (Throw (SysError code (config_path Demo.process))) Demo.fresh
          [EvWriteFile (config_path Demo.process) (Buffer_from sea_config)].
Proof.
  apply (createTestSea_needs_workspace (H:=md5)); vm_compute; reflexivity.
Defined.

(** A second run, which skips the embedding: the build tool still runs. *)
Lemma createTestSea_always_builds_witness :
  exists rest,
    trace (createTestSea Demo.host Demo.process Demo.built)
    = EvWriteFile (config_path Demo.process) (Buffer_from sea_config)
      :: EvExec sea_command None (outDir Demo.process) :: rest.
Proof.
  apply (createTestSea_always_builds (H:=md5)); by_running.
Defined.

(** A build tool that exits with 0 and writes nothing. *)
Lemma createTestSea_blob_missing_witness :
  exists code,
    createTestSea Scenario.silent_host Demo.process Scenario.staged
    = Run (Crash (SysError code (blob_path Demo.process)))
          (with_config Demo.process Scenario.staged)
          [EvWriteFile (config_path Demo.process) (Buffer_from sea_config);
           EvExec sea_command None (outDir Demo.process)].
Proof.
  apply (createTestSea_blob_missing (H:=md5) Scenario.silent_host Demo.process
           Scenario.staged (with_config Demo.process Scenario.staged));
    first [ reflexivity | by_running | intros c; vm_compute; discriminate ].
Defined.

(** A rebuild over an out-of-date blob and a patched executable of the
    run before: the patcher gets a fresh copy. *)
Lemma createTestSea_embedding_witness :
  exists exe,
    Demo.after_build Demo.stale !! execPath Demo.process = Some (File exe) /\
    disk (fs_cp (execPath Demo.process) (exe_path Demo.process)
            (Demo.after_build Demo.stale)) !! exe_path Demo.process
    = Some (File exe).
Proof.
  apply (createTestSea_embedding (H:=md5) Demo.host Demo.process Demo.stale
           (Demo.after_build Demo.stale) Demo.blob); by_running.
Defined.

(** A run whose patcher fails, and the run after it. *)
Lemma createTestSea_failed_patch_not_retried_witness :
  res (createTestSea Scenario.unpatched_host Demo.process Demo.stale)
    = Throw (ExecError postject_command) /\
  res (createTestSea Scenario.unpatched_host Demo.process
         (disk (createTestSea Scenario.unpatched_host Demo.process Demo.stale)))
    = Ok false.
Proof.
  pose proof (createTestSea_failed_patch_not_retried (H:=md5)
                Scenario.unpatched_host Demo.process Demo.stale
                Scenario.rebuilt Scenario.unpatched Scenario.rebuilt_again
                Demo.blob Demo.blob) as W.
  cbv zeta in W.
  destruct W as (Hfirst & _ & Hsecond); [by_running..|].
  split; [exact Hfirst | by rewrite Hsecond].
Defined.

(** ** The orchestrator, further *)

Lemma filter_none (kind : event -> bool) (t : list event) :
  Forall (fun ev => kind ev = false) t -> List.filter kind t = [].
Proof.
  induction 1 as [|ev t Hev _ IH]; simpl; [done|]. by rewrite Hev.
Qed.

Lemma calls_filter_side_effect (t : list event) :
  calls is_launch (List.filter is_side_effect t) = calls is_launch t.
Proof.
  unfold calls. induction t as [|ev t IH]; [done|].
  destruct ev; simpl; by rewrite ?IH.
Qed.

Section Orchestrator_more.

Context {H : StreamHash}.
Variable host : Host.
Variable process : Process.

(** No stage writes a [console.error] line of its own. *)
Lemma prepareScript_quiet (fs : FS) :
  List.filter is_error_log (trace (prepareScript process fs)) = [].
Proof.
  apply filter_none. revert fs. by apply prepareScript_emits.
Qed.

Lemma createTestSea_quiet (fs : FS) :
  List.filter is_error_log (trace (createTestSea host process fs)) = [].
Proof.
  apply filter_none. revert fs. unfold createTestSea. emits; reflexivity.
Qed.

Lemma registerAppx_quiet (fs : FS) :
  List.filter is_error_log (trace (registerAppx host process fs)) = [].
Proof.
  apply filter_none. revert fs. unfold registerAppx. emits; reflexivity.
Qed.

Lemma runExe_quiet (fs : FS) :
  List.filter is_error_log (trace (runExe host process fs)) = [].
Proof.
  apply filter_none. revert fs. unfold runExe. emits; try reflexivity.
  all: intros; reflexivity.
Qed.

(** The launcher is the one side effect of [runExe]. *)
Lemma runExe_side_effects (fs : FS) :
  List.filter is_side_effect (trace (runExe host process fs))
  = [EvSpawn exeName (tail (argv process)) (cwd process)].
Proof.
  unfold runExe, bind, console, emit, spawn. cbv zeta.
  by destruct (run_child _ _ _ _ _) as [code|[[|c]|sig] out err fs'].
Qed.

(** X10: when the registrar fails, [main] logs its line, throws the
    registrar's error and never starts the launcher; the disk is what the
    registrar left, so the executable just built stays. *)
Theorem main_registration_failure (fs fs3 : FS) :
  assemble_outcome host process fs = Some (Ok true) ->
  run_command host register_command (Some "powershell.exe") (cwd process)
    (disk (createTestSea host process (disk (prepareScript process fs))))
    = (false, fs3) ->
  let r := main host process fs in
  res r = Throw (ExecError register_command) /\
  disk r = fs3 /\
  calls is_launch (trace r) = 0 /\
  exists before,
    trace r = before ++
      [EvConsole "log" "Registering Appx package…";
       EvExec register_command (Some "powershell.exe") (cwd process);
       EvConsole "error" "Error registering AppX package."].
Proof.
  intros Hasm Hreg r. unfold assemble_outcome in Hasm.
  destruct (String.eqb (platform process) "win32") eqn:Hwin; [|done].
  unfold r. rewrite main_run by done. cbv zeta.
  pose proof (prepareScript_calls process is_launch fs (or_intror eq_refl)) as Hp.
  destruct (res (prepareScript process fs)) as [[]|e|e]; [|done..].
  set (fs1 := disk (prepareScript process fs)) in *.
  pose proof (createTestSea_calls host process is_launch fs1 (or_intror eq_refl)) as Hc.
  injection Hasm as Hasm. rewrite Hasm.
  set (fs2 := disk (createTestSea host process fs1)) in *.
  assert (Hrun : registerAppx host process fs2
    = Run (Throw (ExecError register_command)) fs3
        [EvConsole "log" "Registering Appx package…";
         EvExec register_command (Some "powershell.exe") (cwd process)]).
  { unfold registerAppx. erewrite bind_run by reflexivity.
    by rewrite (exec_fail _ _ _ _ _ _ Hreg). }
  rewrite Hrun. cbn [res disk trace].
  split; [done|]. split; [done|]. split.
  - rewrite !calls_app, Hp, Hc. reflexivity.
  - exists (trace (prepareScript process fs) ++ trace (createTestSea host process fs1)).
    by rewrite <- !(assoc_L (++)).
Qed.

(** X11: [main] writes one [console.error] line exactly when one of the
    three stages inside a [try] threw, and the line names that stage; a
    wrong platform, a launcher that rejects, and the end of the process write
    none. *)
Theorem main_error_log (fs : FS) :
  List.filter is_error_log (trace (main host process fs))
  = match failed_stage host process fs with
    | Some msg => [EvConsole "error" msg]
    | None => []
    end.
Proof.
  unfold failed_stage.
  destruct (String.eqb (platform process) "win32") eqn:Hwin;
    [|by rewrite main_not_win32].
  rewrite main_run by done. cbv zeta.
  pose proof (prepareScript_quiet fs) as Hp.
  destruct (res (prepareScript process fs)) as [[]|e|e]; cbn [trace];
    [|by rewrite ?List.filter_app, Hp..].
  set (fs1 := disk (prepareScript process fs)).
  pose proof (createTestSea_quiet fs1) as Hc.
  destruct (res (createTestSea host process fs1)) as [[|]|e|e]; cbn [trace];
    [| |by rewrite ?List.filter_app, Hp, Hc..].
  - set (fs2 := disk (createTestSea host process fs1)).
    pose proof (registerAppx_quiet fs2) as Hr.
    pose proof (runExe_quiet (disk (registerAppx host process fs2))) as Hx.
    destruct (res (registerAppx host process fs2)) as [[]|e|e]; cbn [trace];
      by rewrite ?List.filter_app, Hp, Hc, Hr, ?Hx.
  - pose proof (runExe_quiet (disk (createTestSea host process fs1))) as Hx.
    cbn [ret res disk trace]. by rewrite !List.filter_app, Hp, Hc, Hx.
Qed.

(** X12: the launcher is started at most once in a run, and when it is,
    it is the last thing the run does to the world: every write and every
    other subprocess comes before it. *)
Theorem main_launcher_last (fs : FS) :
  let t := trace (main host process fs) in
  calls is_launch t <= 1 /\
  (calls is_launch t = 1 ->
   exists earlier,
     List.filter is_side_effect t
     = earlier ++ [EvSpawn exeName (tail (argv process)) (cwd process)]
     /\ calls is_launch earlier = 0).
Proof.
  cbv zeta.
  destruct (String.eqb (platform process) "win32") eqn:Hwin;
    [|rewrite main_not_win32 by done; split; [unfold calls; simpl; lia | unfold calls; simpl; lia]].
  rewrite main_run by done. cbv zeta.
  pose proof (prepareScript_calls process is_launch fs (or_intror eq_refl)) as Hp.
  destruct (res (prepareScript process fs)) as [[]|e|e]; cbn [trace];
    [|rewrite ?calls_app, ?Hp; split; [unfold calls; simpl; lia | unfold calls; simpl; lia]..].
  set (fs1 := disk (prepareScript process fs)).
  pose proof (createTestSea_calls host process is_launch fs1 (or_intror eq_refl)) as Hc.
  destruct (res (createTestSea host process fs1)) as [b|e|e]; cbn [trace];
    [|rewrite ?calls_app, ?Hp, ?Hc; split; [unfold calls; simpl; lia | unfold calls; simpl; lia]..].
  set (fs2 := disk (createTestSea host process fs1)).
  set (r3 := (if b then registerAppx host process else ret tt) fs2).
  assert (Hr : calls is_launch (trace r3) = 0).
  { unfold r3. destruct b; [apply registerAppx_calls | done]. }
  destruct (res r3) as [[]|e|e]; cbn [trace];
    [|rewrite ?calls_app, ?Hp, ?Hc, ?Hr; split; [unfold calls; simpl; lia | unfold calls; simpl; lia]..].
  pose proof (runExe_calls host process (disk r3)) as [_ Hx].
  rewrite !calls_app, Hp, Hc, Hr, Hx. split; [lia|]. intros _.
  exists (List.filter is_side_effect
            (trace (prepareScript process fs) ++
             trace (createTestSea host process fs1) ++ trace r3)).
  split.
  - rewrite !List.filter_app, runExe_side_effects.
    by rewrite <- !(assoc_L (++)).
  - rewrite calls_filter_side_effect, !calls_app, Hp, Hc, Hr. reflexivity.
Qed.

End Orchestrator_more.

(** A first run whose registrar fails. *)
Lemma main_registration_failure_witness :
  res (main Scenario.unregistered_host Demo.process Demo.fresh)
    = Throw (ExecError register_command) /\
  calls is_launch (trace (main Scenario.unregistered_host Demo.process Demo.fresh)) = 0.
Proof.
  pose proof (main_registration_failure (H:=md5) Scenario.unregistered_host
                Demo.process Demo.fresh
                (disk (createTestSea Scenario.unregistered_host Demo.process
                         Scenario.staged))) as W.
  cbv zeta in W.
  destruct W as (Hres & _ & Hlaunch & _); [by_running..|].
  split; [exact Hres | exact Hlaunch].
Defined.

(** A second run, where the launcher is the one side effect after the
    build. *)
Lemma main_launcher_last_witness :
  exists earlier,
    List.filter is_side_effect (trace (main Demo.host Demo.process Demo.built))
    = earlier ++ [EvSpawn exeName (tail (argv Demo.process)) (cwd Demo.process)]
    /\ calls is_launch earlier = 0.
Proof.
  apply (main_launcher_last (H:=md5) Demo.host Demo.process Demo.built).
  vm_compute. reflexivity.
Defined.

(** ** The strings the script writes *)

Lemma bytes_of_hex_cons (x : Byte.byte) (s : string) :
  bytes_of_hex (hex_byte x +:+ s)
  = match bytes_of_hex s with
    | Some rest => Some (x :: rest)
    | None => None
    end.
Proof.
  unfold hex_byte. rewrite !append_cons, append_nil.
  cbn [bytes_of_hex].
  assert (forall y : Byte.byte,
    exists h l,
      hex_value (hex_digit (Byte.to_N y / 16)) = Some h /\
      hex_value (hex_digit (Byte.to_N y mod 16)) = Some l /\
      Byte.of_N (16 * h + l) = Some y) as Hdigits.
  { intros y. destruct y; vm_compute; eauto. }
  destruct (Hdigits x) as (h & l & -> & -> & Hb).
  destruct (bytes_of_hex s); [|done]. by rewrite Hb.
Qed.

Lemma bytes_of_hex_of_bytes (b : bytes) : bytes_of_hex (hex_of_bytes b) = Some b.
Proof.
  induction b as [|x b IH]; [done|].
  cbn [hex_of_bytes]. by rewrite bytes_of_hex_cons, IH.
Qed.

Lemma string_length_app (a b : string) :
  String.length (a +:+ b) = String.length a + String.length b.
Proof.
  induction a as [|c a IH]; [done|].
  rewrite append_cons. cbn [String.length]. by rewrite IH.
Qed.

(** X13: the hex form of a digest loses nothing: it has two characters a
    byte, and two checksums compare equal with [===] exactly when the
    digests are the same bytes, so the skip rests on the digests alone. *)
Theorem checksum_comparison_exact (a b : bytes) :
  String.length (hex_of_bytes a) = 2 * length a /\
  (strict_eq (Some (hex_of_bytes a)) (hex_of_bytes b) = true <-> a = b).
Proof.
  split.
  - induction a as [|x a IH]; [done|].
    cbn [hex_of_bytes]. rewrite string_length_app, IH.
    unfold hex_byte. cbn [String.length length]. lia.
  - rewrite strict_eq_true. split; [|by intros ->].
    intros [= E]. apply (f_equal bytes_of_hex) in E.
    rewrite !bytes_of_hex_of_bytes in E. by injection E.
Qed.

(** The escapes of one character read back. *)
Lemma json_unescape_escape (c : ascii) (s : string) :
  json_unescape_all (json_escape c +:+ s)
  = match json_unescape_all s with
    | Some rest => Some (String c rest)
    | None => None
    end.
Proof.
  destruct c as [[] [] [] [] [] [] [] []]; reflexivity.
Qed.

Lemma json_unescape_escape_all (s : string) :
  json_unescape_all (json_escape_all s) = Some s.
Proof.
  induction s as [|c s IH]; [done|].
  cbn [json_escape_all]. by rewrite json_unescape_escape, IH.
Qed.

Lemma count_char_app (x : ascii) (a b : string) :
  count_char x (a +:+ b) = count_char x a + count_char x b.
Proof.
  induction a as [|c a IH]; [done|].
  rewrite append_cons. cbn [count_char]. rewrite IH. lia.
Qed.

Lemma json_escape_no_control (c : ascii) :
  all_chars (fun x => negb (is_control x)) (json_escape c) = true.
Proof. destruct c as [[] [] [] [] [] [] [] []]; reflexivity. Qed.

Lemma json_escape_all_no_control (s : string) :
  all_chars (fun x => negb (is_control x)) (json_escape_all s) = true.
Proof.
  induction s as [|c s IH]; [done|].
  cbn [json_escape_all]. by rewrite all_chars_app, json_escape_no_control, IH.
Qed.

(** A string without control characters has no line feed. *)
Lemma no_control_no_lf (s : string) :
  all_chars (fun x => negb (is_control x)) s = true ->
  count_char (ascii_of_nat 10) s = 0.
Proof.
  induction s as [|c s IH]; [done|]. cbn [all_chars count_char].
  intros [Hc Hs]%andb_true_iff. rewrite (IH Hs).
  destruct (Ascii.eqb_spec c (ascii_of_nat 10)) as [->|]; [done|lia].
Qed.

Lemma append_inv_tail (t : string) : forall a b : string,
  a +:+ t = b +:+ t -> a = b.
Proof.
  induction a as [|c a IH]; intros [|d b] E.
  - done.
  - apply (f_equal String.length) in E.
    rewrite append_nil, append_cons in E. cbn [String.length] in E.
    rewrite string_length_app in E. lia.
  - apply (f_equal String.length) in E.
    rewrite append_nil, append_cons in E. cbn [String.length] in E.
    rewrite string_length_app in E. lia.
  - rewrite !append_cons in E. injection E as -> E. by rewrite (IH b E).
Qed.

Lemma JSON_stringify_inj (a b : string) :
  JSON_stringify a = JSON_stringify b -> a = b.
Proof.
  unfold JSON_stringify. intros E.
  apply (inj (String.append dq)) in E. apply append_inv_tail in E.
  apply (f_equal json_unescape_all) in E.
  rewrite !json_unescape_escape_all in E. by injection E.
Qed.

(** X14: whatever the directory of the tool is called, the preload is
    three lines: its name is written as one literal without a control
    character in it, so the source script starts on a line of its own; and
    the preload tells the directories apart. *)
Theorem preload_literal (process process' : Process) :
  count_char (ascii_of_nat 10) (preload process) = 3 /\
  all_chars (fun x => negb (is_control x))
    (JSON_stringify (path_to_string (dirname process))) = true /\
  (preload process = preload process' ->
   path_to_string (dirname process) = path_to_string (dirname process')).
Proof.
  assert (Hbody : forall s,
    all_chars (fun x => negb (is_control x)) (JSON_stringify s) = true).
  { intros s. unfold JSON_stringify.
    by rewrite !all_chars_app, json_escape_all_no_control. }
  split; [|split; [apply Hbody|]].
  - unfold preload. rewrite !count_char_app.
    rewrite (no_control_no_lf _ (Hbody _)). reflexivity.
  - unfold preload. intros E.
    do 4 apply (inj (String.append _)) in E.
    apply append_inv_tail in E. by apply JSON_stringify_inj.
Qed.

(** ** The packaged script *)

(** X15: the script the packaged program loads is the first argument the
    user gave to the tool. [runExe] passes on all of its own arguments but
    the first, the runtime puts two entries before them, and
    [msix-node.js] skips three: what it loads is the tool's third argument,
    as it is when it is an absolute path and joined to the current
    directory otherwise. Without such an argument it throws a type error
    and loads nothing. *)
Theorem packaged_script_is_first_argument (rt : MsixNode.Runtime) (host : Host)
    (cli child : Process) (fs : FS) (args : list string) (dir : path)
    (e0 e1 : string) :
  In (EvSpawn exeName args dir) (trace (runExe host cli fs)) ->
  argv child = e0 :: e1 :: args ->
  cwd child = dir ->
  MsixNode.main rt child
  = match argv cli !! 2%nat with
    | None => throw MsixNode.path_type_error
    | Some script =>
      MsixNode.load rt
        (if MsixNode.isAbsolute script then script
         else MsixNode.join rt (path_to_string (cwd cli)) script)
    end.
Proof.
  intros Hspawn Hargv Hcwd.
  assert (args = tail (argv cli) /\ dir = cwd cli) as [-> ->].
  { revert Hspawn. unfold runExe, bind, console, emit, spawn. cbv zeta.
    destruct (run_child _ _ _ _ _) as [code|[[|c]|sig] out err fs'];
      cbn [res disk trace app In]; intros Hin;
      repeat (destruct Hin as [Hin|Hin]; [try done; by injection Hin|]);
      done. }
  unfold MsixNode.main. rewrite Hargv, Hcwd.
  by destruct (argv cli) as [|a0 [|a1 [|a2 rest]]].
Qed.

(** The tool called as [node cli.js app.js] from [C:\work]. *)
Lemma packaged_script_is_first_argument_witness :
  MsixNode.main Scenario.runtime (Scenario.child_process Demo.process)
  = MsixNode.load Scenario.runtime "C:\work\app.js".
Proof.
  apply (packaged_script_is_first_argument Scenario.runtime Demo.host
           Demo.process (Scenario.child_process Demo.process) Demo.built
           (tail (argv Demo.process)) (cwd Demo.process)
           "msixnode.exe" "msixnode.exe").
  - vm_compute. auto.
  - reflexivity.
  - reflexivity.
Defined.
